(** * AI Gateway: routing engine, request executor and Anthropic adapter

    A shallow embedding of the routing-and-execution pipeline of the
    gateway (python/gateway/routing/router.py, core/models.py,
    core/executor.py, providers/anthropic.py, usage/storage.py) together
    with the properties the specification states about it.

    Python objects become records, dictionaries become [gmap]s with
    string keys, exceptions become values of [PyException] carried by an
    outcome type, and the mutable process state (the random generator,
    the model registry, the usage storage, the loggers, the clock) is
    threaded through a state-and-exception monad [Py]. *)

From Stdlib Require Import ZArith NArith QArith Qfield Lqa Bool Ascii String List Lia.
From Stdlib Require Import Floats.PrimFloat Numbers.Cyclic.Int63.Uint63.
From stdpp Require Import base option list gmap strings pretty.

Set Warnings "-inexact-float".
Local Open Scope string_scope.
Local Open Scope list_scope.

(** ** Python numbers

    The percentage weights are Python numbers: [float]s once pydantic has
    validated a [PercentageStrategy], combined with the [int] literals [0]
    and [100] of the source.  The operations the routing code applies to
    them are collected in one interface, so that the same embedding can be
    run on IEEE binary64 values (what the interpreter computes) and on
    exact rationals (what the algorithm computes when no rounding
    happens). *)

Class Number (num : Type) := {
  num_zero : num;                    (* the literal 0 *)
  num_hundred : num;                 (* the literal 100 *)
  num_add : num → num → num;         (* x + y *)
  num_mul : num → num → num;         (* x * y *)
  num_div : num → num → num;         (* x / y, for y != 0 *)
  num_eqb : num → num → bool;        (* x == y *)
  num_leb : num → num → bool;        (* x <= y *)
  num_unit : N → num                 (* k / 2**53, the value of random.random() *)
}.

(** ** Python values of type Any *)

Inductive Value : Type :=
  | VNone
  | VBool (b : bool)
  | VInt (z : Z)
  | VStr (s : string)
  | VOther (is_true : bool) (repr : string).
      (* any other object, observed only through bool() and str() *)

(** bool(v) *)
Definition truthy (v : Value) : bool :=
  match v with
  | VNone => false
  | VBool b => b
  | VInt z => negb (z =? 0)%Z
  | VStr s => negb (s =? "")
  | VOther t _ => t
  end.

(** str(v), as an f-string interpolates it *)
Definition py_str (v : Value) : string :=
  match v with
  | VNone => "None"
  | VBool true => "True"
  | VBool false => "False"
  | VInt z => pretty z
  | VStr s => s
  | VOther _ r => r
  end.

(** a or b *)
Definition py_or (a b : Value) : Value := if truthy a then a else b.

(** ** gateway/errors/exceptions.py, and the builtin exceptions met on the way *)

Inductive ExceptionClass : Set :=
  | GatewayError | ConfigurationError | ProviderError | ModelNotFoundError
  | ProviderNotFoundError | RouterError | ExecutionError | AuthenticationError
  | AuthorizationError | RateLimitExceededError | QuotaExceededError
  | ValidationError | GuardrailError | UsageTrackingError
  | ZeroDivisionError | IndexError | AttributeError | TypeError
  | OtherException.   (* any other subclass of Exception, e.g. of an upstream SDK *)

(** An exception instance: its class and its message, [str(e)].  Only
    subclasses of [Exception] are modelled; these are what
    [except Exception] catches. *)
Record PyException := mkException {
  exc_class : ExceptionClass;
  exc_message : string
}.

Definition str_of_exception (e : PyException) : string := exc_message e.

Inductive Outcome (A : Type) : Type :=
  | Return (a : A)
  | Raise (e : PyException).
Arguments Return {A} a.
Arguments Raise {A} e.

(** ** gateway/config/models.py *)

Inductive ModelType := COMPLETIONS | EMBEDDINGS | IMAGE_GENERATION.

Record InferenceProviderConfig := {
  provider : string;
  model_name : string;
  endpoint : option string
}.

Record ModelDefinition := {
  model : string;
  model_provider : string;
  inference_provider : InferenceProviderConfig;
  model_type : ModelType;
  description : string
}.

Record MetricSelector := {
  metric_name : string;
  metric_order : string
}.

(** A target is a [Dict[str, Any]]. *)
Abbreviation Target := (gmap string Value).

(** ** Python's random module

    The generator is a stream of raw 53-bit draws and a cursor; every
    call consumes one draw. *)
Record RandomState := {
  entropy : nat → N;
  draws : nat
}.

Definition next_draw (st : RandomState) : N := entropy st (draws st).
Definition advance (st : RandomState) : RandomState :=
  {| entropy := entropy st; draws := S (draws st) |}.

(** ** Loggers *)

Inductive LogLevel := DEBUG | INFO | WARNING | ERROR.

Record LogRecord := {
  log_level : LogLevel;
  log_message : string;
  log_extra : list (string * Value)
}.

(** ** Python strings *)

(** The characters str.split() treats as separators, among ASCII. *)
Definition is_space (c : ascii) : bool :=
  let n := nat_of_ascii c in
  ((9 <=? n) && (n <=? 13) || (28 <=? n) && (n <=? 32))%nat.

Fixpoint words_from (in_word : bool) (s : string) : nat :=
  match s with
  | EmptyString => 0
  | String c rest =>
      if is_space c then words_from false rest
      else ((if in_word then 0 else 1) + words_from true rest)%nat
  end.

(** len(s.split()) *)
Definition word_count (s : string) : Z := Z.of_nat (words_from false s).

(** ** gateway/core/types.py *)

Inductive Role := SYSTEM | USER | ASSISTANT | TOOL | FUNCTION.

Inductive FinishReason := STOP | LENGTH | CONTENT_FILTER | TOOL_CALLS | FUNCTION_CALL.

Record MessageContent := {
  part_type : string;
  part_text : option string
}.

(** ChatMessage.content : Union[str, List[MessageContent]] *)
Inductive Content :=
  | Text (s : string)
  | Parts (ps : list MessageContent).

Record ChatMessage := {
  role : Role;
  content : Content
}.

(** [model] is a [str] on a validated request; [model_copy(update=...)]
    does not validate, so on the copy handed to an adapter it is whatever
    the target carries.  The attributes other than [model] and [messages]
    (stream, temperature, max_tokens, ..., and the extra fields allowed
    by [extra = "allow"]) are kept by name; one that is absent reads as
    [None]. *)
Record ChatCompletionRequest := {
  req_model : Value;
  req_messages : list ChatMessage;
  req_fields : gmap string Value
}.

(** request.<field> for an attribute kept by name *)
Definition req_attr (request : ChatCompletionRequest) (field : string) : Value :=
  default VNone (req_fields request !! field).

Record Usage := {
  prompt_tokens : Z;
  completion_tokens : Z;
  total_tokens : Z
}.

Record ChatCompletionResponseChoice := {
  choice_index : Z;
  choice_message : ChatMessage;
  choice_finish_reason : option FinishReason
}.

Record ChatCompletionResponse := {
  resp_id : string;
  resp_model : string;
  resp_choices : list ChatCompletionResponseChoice;
  resp_usage : option Usage
}.

Record ChatCompletionStreamResponseChoice := {
  delta_index : Z;
  delta : gmap string Value;
  delta_finish_reason : option FinishReason
}.

Record ChatCompletionStreamResponse := {
  chunk_id : string;
  chunk_model : string;
  chunk_choices : list ChatCompletionStreamResponseChoice;
  chunk_usage : option Usage
}.

Record EmbeddingRequest := {
  emb_model : string;
  emb_input : list string
}.

Record EmbeddingResponse := {
  emb_resp_model : string;
  emb_usage : Usage
}.

Record ImageGenerationRequest := {
  img_model : string;
  img_prompt : string
}.

Record ImageGenerationResponse := {
  img_data : list string
}.

Record GatewayResponse (T : Type) := {
  response : T;
  usage : Usage
}.
Arguments response {T} _.
Arguments usage {T} _.

(** ** gateway/core/executor.py: RequestContext *)

Record RequestContext := {
  request_id : string;
  user_id : option string;
  thread_id : option string;
  run_id : option string;
  target_model : Value;       (* Optional[str], None until routing resolves *)
  target_provider : Value
}.

(** ** gateway/core/models.py: ModelRegistry *)

Record ModelRegistry := {
  _models : gmap string ModelDefinition;
  _loaded : bool
}.

(** ** gateway/usage/storage.py

    One entry per call of [record_usage], with the arguments the
    executor passes; the in-memory storage appends one record per call. *)
Record UsageRecord := {
  rec_provider : Value;
  rec_model : Value;
  rec_user_id : option string;
  rec_request_id : string;
  rec_thread_id : option string;
  rec_run_id : option string;
  rec_input_tokens : Z;
  rec_output_tokens : Z;
  rec_total_tokens : Z;
  rec_latency_ms : Z;
  rec_success : bool;
  rec_error : option string
}.

(** A handle on the storage object the executor was built with. *)
Inductive UsageStorage := InMemoryUsageStorage.

(** ** gateway/providers/base.py: the provider interface

    What an adapter answers to a request stands for the upstream's
    behaviour during one call.  A streaming call yields some chunks and
    then either finishes or raises. *)
Record Provider := {
  create_chat_completion : ChatCompletionRequest → Outcome ChatCompletionResponse;
  create_streaming_chat_completion :
    ChatCompletionRequest → list ChatCompletionStreamResponse * option PyException;
  create_embeddings : EmbeddingRequest → Outcome EmbeddingResponse;
  create_image : ImageGenerationRequest → Outcome ImageGenerationResponse
}.

(** ** The process state *)

Record World := {
  random_state : RandomState;
  model_registry : ModelRegistry;
  models_path : string;       (* the default path of the model definitions *)
  (* the model definitions that validate in the file or directory at
     that path, in load order; None when the path does not exist *)
  models_yaml : option (list ModelDefinition);
  provider_registry : gmap string Provider;
  usage_records : list UsageRecord;   (* what the usage storage holds *)
  clock : nat → Z;            (* elapsed milliseconds at the k-th reading *)
  clock_reads : nat;
  uuid4 : string;             (* str(uuid.uuid4()) *)
  log : list LogRecord
}.

(** ** The monad of Python code: state and exceptions

    [St S A] is a computation over a state [S] that returns an [A] or
    raises; the state reached is kept in both cases. *)

Definition St (S A : Type) : Type := S → Outcome A * S.

Definition ret {S A} (a : A) : St S A := fun s => (Return a, s).
Definition raise {S A} (e : PyException) : St S A := fun s => (Raise e, s).
Definition bind {S A B} (m : St S A) (k : A → St S B) : St S B :=
  fun s => match m s with
           | (Return a, s') => k a s'
           | (Raise e, s') => (Raise e, s')
           end.
(** try: m  except Exception as e: h e *)
Definition try_except {S A} (m : St S A) (h : PyException → St S A) : St S A :=
  fun s => match m s with
           | (Return a, s') => (Return a, s')
           | (Raise e, s') => h e s'
           end.
Definition lift_outcome {S A} (o : Outcome A) : St S A := fun s => (o, s).

Notation "'let!' x ':=' m 'in' k" := (bind m (fun x => k))
  (at level 10, x name, m at level 100, k at level 200, only parsing).
Notation "'do!' m 'in' k" := (bind m (fun _ => k))
  (at level 10, m at level 100, k at level 200, only parsing).

(** Code that touches the process state only. *)
Abbreviation Py := (St World).

Definition error (c : ExceptionClass) (msg : string) : PyException :=
  mkException c msg.

Definition set_random (st : RandomState) (w : World) : World :=
  {| random_state := st; model_registry := model_registry w;
     models_path := models_path w; models_yaml := models_yaml w;
     provider_registry := provider_registry w;
     usage_records := usage_records w; clock := clock w;
     clock_reads := clock_reads w; uuid4 := uuid4 w; log := log w |}.

Definition set_registry (r : ModelRegistry) (w : World) : World :=
  {| random_state := random_state w; model_registry := r;
     models_path := models_path w; models_yaml := models_yaml w;
     provider_registry := provider_registry w;
     usage_records := usage_records w; clock := clock w;
     clock_reads := clock_reads w; uuid4 := uuid4 w; log := log w |}.

Definition set_usage (u : list UsageRecord) (w : World) : World :=
  {| random_state := random_state w; model_registry := model_registry w;
     models_path := models_path w; models_yaml := models_yaml w;
     provider_registry := provider_registry w;
     usage_records := u; clock := clock w;
     clock_reads := clock_reads w; uuid4 := uuid4 w; log := log w |}.

Definition set_clock_reads (n : nat) (w : World) : World :=
  {| random_state := random_state w; model_registry := model_registry w;
     models_path := models_path w; models_yaml := models_yaml w;
     provider_registry := provider_registry w;
     usage_records := usage_records w; clock := clock w;
     clock_reads := n; uuid4 := uuid4 w; log := log w |}.

Definition set_log (l : list LogRecord) (w : World) : World :=
  {| random_state := random_state w; model_registry := model_registry w;
     models_path := models_path w; models_yaml := models_yaml w;
     provider_registry := provider_registry w;
     usage_records := usage_records w; clock := clock w;
     clock_reads := clock_reads w; uuid4 := uuid4 w; log := l |}.

(** logger.<level>(message, extra=...) *)
Definition logging (lvl : LogLevel) (msg : string) (extra : list (string * Value)) : Py unit :=
  fun w => (Return tt,
            set_log (log w ++ [{| log_level := lvl; log_message := msg; log_extra := extra |}]) w).

(** One call of the executor: the context object of the call, the chunks
    a streaming call has yielded so far, and the process state. *)
Record Frame := {
  fr_context : RequestContext;
  fr_yielded : list ChatCompletionStreamResponse;
  fr_world : World
}.

Abbreviation Exec := (St Frame).

(** * The gateway, over any number system *)

Section Gateway.

Context {num : Type} `{Number num}.

(** ** gateway/config/models.py: routers

    Router.strategy is a union of the four strategy classes; the class
    fixes the [type] tag, and only a PercentageStrategy has
    [targets_percentages], only an OptimizedStrategy a [metric]. *)
Inductive RouterStrategy : Type :=
  | FallbackStrategy
  | PercentageStrategy (targets_percentages : list num)
  | RandomStrategy
  | OptimizedStrategy (metric : MetricSelector).

(** strategy.type *)
Definition strategy_type (s : RouterStrategy) : string :=
  match s with
  | FallbackStrategy => "fallback"
  | PercentageStrategy _ => "percentage"
  | RandomStrategy => "random"
  | OptimizedStrategy _ => "optimized"
  end.

(** getattr(strategy, "targets_percentages"), [None] when hasattr is false *)
Definition targets_percentages_of (s : RouterStrategy) : option (list num) :=
  match s with PercentageStrategy ps => Some ps | _ => None end.

(** hasattr(strategy, "metric") *)
Definition has_metric (s : RouterStrategy) : bool :=
  match s with OptimizedStrategy _ => true | _ => false end.

Record Router := {
  name : string;
  strategy : RouterStrategy;
  targets : list Target
}.

(** random.random() *)
Definition random_random : Py num :=
  fun w => let st := random_state w in
           (Return (num_unit (next_draw st mod 2 ^ 53)%N), set_random (advance st) w).

(** random.uniform(0, 100), that is [a + (b - a) * random()] at a = 0, b = 100 *)
Definition random_uniform_0_100 : Py num :=
  let! u := random_random in
  ret (num_add num_zero (num_mul num_hundred u)).

(** random.choice(seq): [seq[_randbelow(len(seq))]], IndexError on an empty sequence *)
Definition random_choice {A} (seq : list A) : Py A :=
  match seq with
  | [] => raise (error IndexError "Cannot choose from an empty sequence")
  | _ :: _ =>
      fun w => let st := random_state w in
               match seq !! (N.to_nat (next_draw st) mod length seq)%nat with
               | Some x => (Return x, set_random (advance st) w)
               | None => (Raise (error IndexError "list index out of range"),
                          set_random (advance st) w)
               end
  end.

(** seq[i] for a non-negative i *)
Definition py_getitem {A} (seq : list A) (i : nat) : Py A :=
  match seq !! i with
  | Some x => ret x
  | None => raise (error IndexError "list index out of range")
  end.

(** seq[-1] *)
Definition py_last {A} (seq : list A) : Py A :=
  match last seq with
  | Some x => ret x
  | None => raise (error IndexError "list index out of range")
  end.

(** sum(xs): additions from the left, starting at 0 (CPython 3.12 and
    later also compensate the rounding of a sum of floats) *)
Definition py_sum (xs : list num) : num := fold_left num_add xs num_zero.

(** x / y *)
Definition py_truediv (x y : num) : Outcome num :=
  if num_eqb y num_zero
  then Raise (error ZeroDivisionError "float division by zero")
  else Return (num_div x y).

(** [p * 100 / total for p in percentages] *)
Fixpoint normalize (percentages : list num) (total : num) : Outcome (list num) :=
  match percentages with
  | [] => Return []
  | p :: rest =>
      match py_truediv (num_mul p num_hundred) total with
      | Raise e => Raise e
      | Return q =>
          match normalize rest total with
          | Raise e => Raise e
          | Return qs => Return (q :: qs)
          end
      end
  end.

(** ** gateway/core/models.py *)

(** load_models() with its default arguments; the list returned holds
    the values of the dictionary *)
Definition load_models : Py (list ModelDefinition) :=
  fun w =>
    let reg := model_registry w in
    if _loaded reg then (Return (snd <$> map_to_list (_models reg)), w)
    else match models_yaml w with
         | None =>
             (Return [],
              snd (logging WARNING ("Models path does not exist: " ++ models_path w) [] w))
         | Some defs =>
             let ms := fold_left (fun m d => <[model d := d]> m) defs ∅ in
             let loaded :=
               (fun d => {| log_level := DEBUG;
                            log_message := "Loaded model: " ++ model d;
                            log_extra := [] |}) <$> defs in
             (Return (snd <$> map_to_list ms),
              snd (logging INFO ("Loaded " ++ pretty (size ms) ++ " models") []
                     (set_log (log w ++ loaded)
                        (set_registry {| _models := ms; _loaded := true |} w))))
         end.

Definition get_model (model_id : string) : Py (option ModelDefinition) :=
  fun w =>
    let w' := if _loaded (model_registry w) then w else snd (load_models w) in
    (Return (_models (model_registry w') !! model_id), w').

(** ** gateway/routing/router.py *)

Record RoutingEngine := {
  routers : list Router;
  _router_map : gmap string Router
}.

(** RoutingEngine.__init__ *)
Definition new_RoutingEngine (rs : list Router) : RoutingEngine :=
  {| routers := rs;
     _router_map := fold_left (fun m r => <[name r := r]> m) rs ∅ |}.

Definition add_router (self : RoutingEngine) (router : Router) : RoutingEngine :=
  {| routers := routers self ++ [router];
     _router_map := <[name router := router]> (_router_map self) |}.

Definition get_router (self : RoutingEngine) (nm : string) : option Router :=
  _router_map self !! nm.

(** not router.targets *)
Definition no_targets (router : Router) : bool :=
  match targets router with [] => true | _ => false end.

Definition no_targets_error (router : Router) : PyException :=
  error RouterError ("Router " ++ name router ++ " has no targets").

Definition _apply_fallback_strategy (self : RoutingEngine) (router : Router)
    (request : ChatCompletionRequest) (context : option RequestContext) : Py Target :=
  if no_targets router then raise (no_targets_error router)
  else py_getitem (targets router) 0.

(** The loop [for i, pct in enumerate(percentages)], entered at index [i]
    with the running [cumulative], followed by the statement after it. *)
Fixpoint percentage_loop (tgts : list Target) (rand_val cumulative : num)
    (i : nat) (percentages : list num) : Py Target :=
  match percentages with
  | [] => py_last tgts
  | pct :: rest =>
      let cumulative := num_add cumulative pct in
      if num_leb rand_val cumulative then py_getitem tgts i
      else percentage_loop tgts rand_val cumulative (S i) rest
  end.

Definition _apply_percentage_strategy (self : RoutingEngine) (router : Router)
    (request : ChatCompletionRequest) (context : option RequestContext) : Py Target :=
  if no_targets router then raise (no_targets_error router)
  else
    match targets_percentages_of (strategy router) with
    | None => raise (error RouterError "Percentage strategy requires targets_percentages")
    | Some percentages =>
        if negb (length percentages =? length (targets router))%nat then
          raise (error RouterError
                   ("Number of percentages (" ++ pretty (length percentages)
                    ++ ") does not match number of targets ("
                    ++ pretty (length (targets router)) ++ ")"))
        else
          let total := py_sum percentages in
          let! percentages := (if negb (num_eqb total num_hundred)
                          then lift_outcome (normalize percentages total)
                          else ret percentages) in
          let! rand_val := random_uniform_0_100 in
          percentage_loop (targets router) rand_val num_zero 0 percentages
    end.

Definition _apply_random_strategy (self : RoutingEngine) (router : Router)
    (request : ChatCompletionRequest) (context : option RequestContext) : Py Target :=
  if no_targets router then raise (no_targets_error router)
  else random_choice (targets router).

Definition _apply_optimized_strategy (self : RoutingEngine) (router : Router)
    (request : ChatCompletionRequest) (context : option RequestContext) : Py Target :=
  if no_targets router then raise (no_targets_error router)
  else if negb (has_metric (strategy router)) then
    raise (error RouterError "Optimized strategy requires a metric selector")
  else
    do! logging WARNING "Optimized routing strategy not fully implemented, falling back to random" [] in
    random_choice (targets router).

Definition _apply_routing_strategy (self : RoutingEngine) (router : Router)
    (request : ChatCompletionRequest) (context : option RequestContext) : Py Target :=
  if no_targets router then raise (no_targets_error router)
  else
    let strategy_type := strategy_type (strategy router) in
    try_except
      (if strategy_type =? "fallback" then
         _apply_fallback_strategy self router request context
       else if strategy_type =? "percentage" then
         _apply_percentage_strategy self router request context
       else if strategy_type =? "random" then
         _apply_random_strategy self router request context
       else if strategy_type =? "optimized" then
         _apply_optimized_strategy self router request context
       else raise (error RouterError ("Unknown routing strategy: " ++ strategy_type)))
      (fun e =>
         do! logging ERROR ("Error applying routing strategy " ++ strategy_type ++ ": "
                            ++ str_of_exception e) [] in
         raise (error RouterError ("Routing strategy error: " ++ str_of_exception e))).

(** s.split("/", 1): the text before the first "/" and, when there is
    one, the text after it *)
Fixpoint split_slash_1 (s : string) : string * option string :=
  match s with
  | EmptyString => (EmptyString, None)
  | String c rest =>
      if Ascii.eqb c "/"%char then (EmptyString, Some rest)
      else let '(a, b) := split_slash_1 rest in (String c a, b)
  end.

Definition route_chat_request (self : RoutingEngine)
    (request : ChatCompletionRequest) (context : option RequestContext) : Py Target :=
  match req_model request with
  | VStr requested =>                      (* model_name = request.model *)
      if String.prefix "router/" requested then
        match snd (split_slash_1 requested) with
        | None => raise (error IndexError "list index out of range")
        | Some router_name =>
            match get_router self router_name with
            | None => raise (error RouterError ("Router not found: " ++ router_name))
            | Some router => _apply_routing_strategy self router request context
            end
        end
      else
        let! m := get_model requested in
        match m with
        | None => raise (error ModelNotFoundError ("Model not found: " ++ requested))
        | Some m =>
            ret (<["provider" := VStr (provider (inference_provider m))]>
                   (<["model" := VStr (model_name (inference_provider m))]> ∅))
        end
  | _ => raise (error AttributeError "object has no attribute 'startswith'")
  end.

(** ** gateway/core/executor.py *)

Record RequestExecutor := {
  routing_engine : RoutingEngine;
  usage_storage : option UsageStorage
}.

(** RequestContext() *)
Definition new_RequestContext (w : World) : RequestContext :=
  {| request_id := uuid4 w; user_id := None; thread_id := None; run_id := None;
     target_model := VNone; target_provider := VNone |}.

(** context = context or RequestContext() *)
Definition enter (context : option RequestContext) (w : World) : Frame :=
  {| fr_context := default (new_RequestContext w) context;
     fr_yielded := [];
     fr_world := w |}.

Definition in_world {A} (m : Py A) : Exec A :=
  fun f => let '(o, w) := m (fr_world f) in
           (o, {| fr_context := fr_context f; fr_yielded := fr_yielded f; fr_world := w |}).

Definition get_context : Exec RequestContext := fun f => (Return (fr_context f), f).

Definition yield (chunk : ChatCompletionStreamResponse) : Exec unit :=
  fun f => (Return tt,
            {| fr_context := fr_context f; fr_yielded := fr_yielded f ++ [chunk];
               fr_world := fr_world f |}).

(** context.elapsed_ms() *)
Definition elapsed_ms : Exec Z :=
  in_world (fun w => (Return (clock w (clock_reads w)),
                      set_clock_reads (S (clock_reads w)) w)).

(** context.with_target(target): the context object after the call *)
Definition context_with_target (target : Target) (c : RequestContext) : RequestContext :=
  let c1 := match target !! "model" with
            | Some v => {| request_id := request_id c; user_id := user_id c;
                           thread_id := thread_id c; run_id := run_id c;
                           target_model := v; target_provider := target_provider c |}
            | None => c
            end in
  match target !! "provider" with
  | Some v => {| request_id := request_id c1; user_id := user_id c1;
                 thread_id := thread_id c1; run_id := run_id c1;
                 target_model := target_model c1; target_provider := v |}
  | None => c1
  end.

Definition with_target (target : Target) : Exec unit :=
  fun f => (Return tt,
            {| fr_context := context_with_target target (fr_context f);
               fr_yielded := fr_yielded f; fr_world := fr_world f |}).

(** usage_storage.record_usage(...): the in-memory storage appends one record *)
Definition record_usage (r : UsageRecord) : Exec unit :=
  in_world (fun w => (Return tt, set_usage (usage_records w ++ [r]) w)).

(** provider_registry.get_provider(provider_name): the adapters the
    registry holds or can build, by name; a name that is no string finds
    none *)
Definition get_provider (provider_name : Value) : Exec (option Provider) :=
  fun f => (Return match provider_name with
                   | VStr s => provider_registry (fr_world f) !! s
                   | _ => None
                   end, f).

Definition opt_str (o : option string) : Value :=
  match o with Some s => VStr s | None => VNone end.

(** The fields ChatCompletionRequest declares. *)
Definition declared_fields : list string :=
  ["model"; "messages"; "temperature"; "top_p"; "n"; "stream"; "max_tokens";
   "presence_penalty"; "frequency_penalty"; "logit_bias"; "user";
   "response_format"; "seed"; "functions"; "function_call"; "tools";
   "tool_choice"; "stream_options"].

(** hasattr(request, key), for keys that name data attributes *)
Definition hasattr_request (request : ChatCompletionRequest) (key : string) : bool :=
  bool_decide (key ∈ declared_fields) || bool_decide (is_Some (req_fields request !! key)).

(** request.model_copy(update=...) followed by
    [for key, value in target.items():
       if key not in ["model", "provider"] and hasattr(modified_request, key):
         setattr(modified_request, key, value)].
    A target entry named "messages" is left out: the model keeps the
    conversation typed. *)
Definition modified_request_for (request : ChatCompletionRequest) (target : Target)
    (model_name : Value) (update : gmap string Value) : ChatCompletionRequest :=
  let copy := {| req_model := model_name; req_messages := req_messages request;
                 req_fields := update ∪ req_fields request |} in
  {| req_model := model_name;
     req_messages := req_messages request;
     req_fields :=
       filter (fun kv => negb (bool_decide (kv.1 ∈ ["model"; "provider"; "messages"]))
                         && hasattr_request copy kv.1 = true) target
       ∪ req_fields copy |}.

Definition zero_usage : Usage :=
  {| prompt_tokens := 0; completion_tokens := 0; total_tokens := 0 |}.

Definition tokens_extra (u : option Usage) : Value :=
  match u with Some u => VInt (total_tokens u) | None => VNone end.

(** The handler shared by the four operations:
    [except Exception as e: log; record the failed usage; raise]. *)
Definition on_failure (self : RequestExecutor) (what : string) (requested : Value)
    (rec_model_of : RequestContext → Value) (with_thread : bool)
    (e : PyException) {A} : Exec A :=
  let! context := get_context in
  let! latency := elapsed_ms in
  do! in_world (logging ERROR (what ++ " error: " ++ str_of_exception e)
                  [("request_id", VStr (request_id context));
                   ("model", requested);
                   ("error", VStr (str_of_exception e));
                   ("latency_ms", VInt latency)]) in
  do! match usage_storage self with
      | Some _ =>
          let! latency := elapsed_ms in
          record_usage
            {| rec_provider := py_or (target_provider context) (VStr "unknown");
               rec_model := rec_model_of context;
               rec_user_id := user_id context;
               rec_request_id := request_id context;
               rec_thread_id := if with_thread then thread_id context else None;
               rec_run_id := if with_thread then run_id context else None;
               rec_input_tokens := 0;
               rec_output_tokens := 0;
               rec_total_tokens := 0;
               rec_latency_ms := latency;
               rec_success := false;
               rec_error := Some (str_of_exception e) |}
      | None => ret tt
      end in
  raise e.

(** The steps of both chat operations up to the adapter call: routing,
    provider lookup and the request handed to the adapter. *)
Definition resolve_chat (self : RequestExecutor) (request : ChatCompletionRequest)
    (update : gmap string Value) : Exec (Value * Provider * Value * ChatCompletionRequest) :=
  let! context := get_context in
  let! target := in_world (route_chat_request (routing_engine self) request (Some context)) in
  do! with_target target in
  let provider_name := default VNone (target !! "provider") in
  if negb (truthy provider_name) then
    raise (error ProviderNotFoundError
             ("No provider specified for model " ++ py_str (default VNone (target !! "model"))))
  else
    let! found := get_provider provider_name in
    match found with
    | None => raise (error ProviderNotFoundError ("Provider not found: " ++ py_str provider_name))
    | Some prov =>
        let model_name := default (req_model request) (target !! "model") in
        ret (provider_name, prov, model_name,
             modified_request_for request target model_name update)
    end.

(** The [try] block of execute_chat_completion. *)
Definition chat_completion_try (self : RequestExecutor)
    (request : ChatCompletionRequest) (context : RequestContext)
    : Exec (GatewayResponse ChatCompletionResponse) :=
  let! resolved := resolve_chat self request ∅ in
  let '(provider_name, prov, model_name, modified_request) := resolved in
  let! response := lift_outcome (create_chat_completion prov modified_request) in
  do! match usage_storage self, resp_usage response with
      | Some _, Some u =>
          let! latency := elapsed_ms in
          record_usage
            {| rec_provider := provider_name;
               rec_model := model_name;
               rec_user_id := user_id context;
               rec_request_id := request_id context;
               rec_thread_id := thread_id context;
               rec_run_id := run_id context;
               rec_input_tokens := prompt_tokens u;
               rec_output_tokens := completion_tokens u;
               rec_total_tokens := total_tokens u;
               rec_latency_ms := latency;
               rec_success := true;
               rec_error := None |}
      | _, _ => ret tt
      end in
  let! latency := elapsed_ms in
  do! in_world (logging INFO "Chat completion success"
                  [("request_id", VStr (request_id context));
                   ("model", model_name);
                   ("provider", provider_name);
                   ("latency_ms", VInt latency);
                   ("tokens", tokens_extra (resp_usage response))]) in
  ret {| response := response;
         usage := default zero_usage (resp_usage response) |}.

(** The "request received" event of the two chat operations. *)
Definition chat_request_log (what : string) (with_stream : bool)
    (request : ChatCompletionRequest) (context : RequestContext) : Exec unit :=
  in_world (logging INFO what
              ([("request_id", VStr (request_id context));
                ("model", req_model request);
                ("messages_count", VInt (Z.of_nat (length (req_messages request))))]
               ++ (if with_stream then [("stream", req_attr request "stream")] else [])
               ++ [("user_id", opt_str (user_id context));
                   ("thread_id", opt_str (thread_id context))])).

Definition execute_chat_completion (self : RequestExecutor)
    (request : ChatCompletionRequest) : Exec (GatewayResponse ChatCompletionResponse) :=
  let! context := get_context in
  do! chat_request_log "Chat completion request" true request context in
  try_except
    (chat_completion_try self request context)
    (fun e =>
       on_failure self "Chat completion" (req_model request)
         (fun context => py_or (target_model context) (req_model request)) true e).

(** The estimate taken from one chunk:
    [for choice in chunk.choices:
       if hasattr(choice, "delta") and choice.delta.get("content"):
         output_tokens += len(choice.delta["content"].split()) // 3] *)
Fixpoint count_choices (choices : list ChatCompletionStreamResponseChoice)
    (output_tokens : Z) : Outcome Z :=
  match choices with
  | [] => Return output_tokens
  | choice :: rest =>
      let c := default VNone (delta choice !! "content") in
      if truthy c then
        match c with
        | VStr text => count_choices rest (output_tokens + word_count text / 3)%Z
        | _ => Raise (error AttributeError "object has no attribute 'split'")
        end
      else count_choices rest output_tokens
  end.

(** [async for chunk in provider.create_streaming_chat_completion(...)] *)
Fixpoint stream_loop (chunks : list ChatCompletionStreamResponse)
    (stop : option PyException) (output_tokens : Z) : Exec Z :=
  match chunks with
  | [] => match stop with
          | Some e => raise e
          | None => ret output_tokens
          end
  | chunk :: rest =>
      do! yield chunk in
      let! output_tokens := lift_outcome (count_choices (chunk_choices chunk) output_tokens) in
      stream_loop rest stop output_tokens
  end.

(** sum(len(m.content.split()) if isinstance(m.content, str) else 50
        for m in request.messages) *)
Definition message_words (m : ChatMessage) : Z :=
  match content m with
  | Text s => word_count s
  | Parts _ => 50
  end.

Definition input_estimate (request : ChatCompletionRequest) : Z :=
  (fold_left (fun acc m => acc + message_words m) (req_messages request) 0 / 3)%Z.

(** The [try] block of execute_streaming_chat_completion. *)
Definition streaming_chat_completion_try (self : RequestExecutor)
    (request : ChatCompletionRequest) (context : RequestContext) : Exec unit :=
  let! resolved := resolve_chat self request {["stream" := VBool true]} in
  let '(provider_name, prov, model_name, modified_request) := resolved in
  let '(chunks, stop) := create_streaming_chat_completion prov modified_request in
  let! output_tokens := stream_loop chunks stop 0 in
  let! input_tokens :=
    match usage_storage self with
    | Some _ =>
        let input_tokens := input_estimate request in
        let! latency := elapsed_ms in
        do! record_usage
              {| rec_provider := provider_name;
                 rec_model := model_name;
                 rec_user_id := user_id context;
                 rec_request_id := request_id context;
                 rec_thread_id := thread_id context;
                 rec_run_id := run_id context;
                 rec_input_tokens := input_tokens;
                 rec_output_tokens := output_tokens;
                 rec_total_tokens := input_tokens + output_tokens;
                 rec_latency_ms := latency;
                 rec_success := true;
                 rec_error := None |} in
        ret input_tokens
    | None => ret 0%Z
    end in
  let! latency := elapsed_ms in
  in_world (logging INFO "Streaming chat completion success"
              [("request_id", VStr (request_id context));
               ("model", model_name);
               ("provider", provider_name);
               ("latency_ms", VInt latency);
               ("estimated_tokens", VInt (input_tokens + output_tokens))]).

(** The chunks yielded are those of [fr_yielded] in the frame reached. *)
Definition execute_streaming_chat_completion (self : RequestExecutor)
    (request : ChatCompletionRequest) : Exec unit :=
  let! context := get_context in
  do! chat_request_log "Streaming chat completion request" false request context in
  try_except
    (streaming_chat_completion_try self request context)
    (fun e =>
       on_failure self "Streaming chat completion" (req_model request)
         (fun context => py_or (target_model context) (req_model request)) true e).

(** The "request received" event of the embeddings and image operations. *)
Definition plain_request_log (what : string) (requested : string)
    (context : RequestContext) : Exec unit :=
  in_world (logging INFO what
              [("request_id", VStr (request_id context));
               ("model", VStr requested);
               ("user_id", opt_str (user_id context))]).

(** [model_registry.get_model(request.model)] and the provider lookup of
    the embeddings and image operations. *)
Definition resolve_direct (requested : string) : Exec (string * Provider) :=
  let! model_def := in_world (get_model requested) in
  match model_def with
  | None => raise (error ModelNotFoundError ("Model not found: " ++ requested))
  | Some model_def =>
      let provider_name := provider (inference_provider model_def) in
      let! found := get_provider (VStr provider_name) in
      match found with
      | None => raise (error ProviderNotFoundError ("Provider not found: " ++ provider_name))
      | Some prov => ret (provider_name, prov)
      end
  end.

(** The [try] block of execute_embeddings.  [response.usage] is a
    required field of an EmbeddingResponse, hence always true. *)
Definition embeddings_try (self : RequestExecutor) (request : EmbeddingRequest)
    (context : RequestContext) : Exec (GatewayResponse EmbeddingResponse) :=
  let! resolved := resolve_direct (emb_model request) in
  let '(provider_name, prov) := resolved in
  let! response := lift_outcome (create_embeddings prov request) in
  do! match usage_storage self with
      | Some _ =>
          let! latency := elapsed_ms in
          record_usage
            {| rec_provider := VStr provider_name;
               rec_model := VStr (emb_model request);
               rec_user_id := user_id context;
               rec_request_id := request_id context;
               rec_thread_id := None;
               rec_run_id := None;
               rec_input_tokens := prompt_tokens (emb_usage response);
               rec_output_tokens := 0;
               rec_total_tokens := total_tokens (emb_usage response);
               rec_latency_ms := latency;
               rec_success := true;
               rec_error := None |}
      | None => ret tt
      end in
  let! latency := elapsed_ms in
  do! in_world (logging INFO "Embeddings success"
                  [("request_id", VStr (request_id context));
                   ("model", VStr (emb_model request));
                   ("provider", VStr provider_name);
                   ("latency_ms", VInt latency);
                   ("tokens", VInt (total_tokens (emb_usage response)))]) in
  ret {| response := response; usage := emb_usage response |}.

Definition execute_embeddings (self : RequestExecutor)
    (request : EmbeddingRequest) : Exec (GatewayResponse EmbeddingResponse) :=
  let! context := get_context in
  do! plain_request_log "Embeddings request" (emb_model request) context in
  try_except
    (embeddings_try self request context)
    (fun e =>
       on_failure self "Embeddings" (VStr (emb_model request))
         (fun _ => VStr (emb_model request)) false e).

(** The [try] block of execute_image_generation. *)
Definition image_generation_try (self : RequestExecutor) (request : ImageGenerationRequest)
    (context : RequestContext) : Exec (GatewayResponse ImageGenerationResponse) :=
  let! resolved := resolve_direct (img_model request) in
  let '(provider_name, prov) := resolved in
  let! response := lift_outcome (create_image prov request) in
  let estimated_usage :=
    {| prompt_tokens := word_count (img_prompt request) / 3;
       completion_tokens := 0;
       total_tokens := word_count (img_prompt request) / 3 |}%Z in
  do! match usage_storage self with
      | Some _ =>
          let! latency := elapsed_ms in
          record_usage
            {| rec_provider := VStr provider_name;
               rec_model := VStr (img_model request);
               rec_user_id := user_id context;
               rec_request_id := request_id context;
               rec_thread_id := None;
               rec_run_id := None;
               rec_input_tokens := prompt_tokens estimated_usage;
               rec_output_tokens := 0;
               rec_total_tokens := total_tokens estimated_usage;
               rec_latency_ms := latency;
               rec_success := true;
               rec_error := None |}
      | None => ret tt
      end in
  let! latency := elapsed_ms in
  do! in_world (logging INFO "Image generation success"
                  [("request_id", VStr (request_id context));
                   ("model", VStr (img_model request));
                   ("provider", VStr provider_name);
                   ("latency_ms", VInt latency);
                   ("images_count", VInt (Z.of_nat (length (img_data response))))]) in
  ret {| response := response; usage := estimated_usage |}.

Definition execute_image_generation (self : RequestExecutor)
    (request : ImageGenerationRequest) : Exec (GatewayResponse ImageGenerationResponse) :=
  let! context := get_context in
  do! plain_request_log "Image generation request" (img_model request) context in
  try_except
    (image_generation_try self request context)
    (fun e =>
       on_failure self "Image generation" (VStr (img_model request))
         (fun _ => VStr (img_model request)) false e).

(** ** The four operations of the executor, taken together *)

Inductive Operation :=
  | Chat (request : ChatCompletionRequest)
  | StreamingChat (request : ChatCompletionRequest)
  | Embeddings (request : EmbeddingRequest)
  | ImageGeneration (request : ImageGenerationRequest).

Inductive OperationResult :=
  | ChatResult (g : GatewayResponse ChatCompletionResponse)
  | StreamingChatResult
  | EmbeddingsResult (g : GatewayResponse EmbeddingResponse)
  | ImageGenerationResult (g : GatewayResponse ImageGenerationResponse).

Definition run_operation (self : RequestExecutor) (op : Operation) : Exec OperationResult :=
  match op with
  | Chat request =>
      let! g := execute_chat_completion self request in ret (ChatResult g)
  | StreamingChat request =>
      do! execute_streaming_chat_completion self request in ret StreamingChatResult
  | Embeddings request =>
      let! g := execute_embeddings self request in ret (EmbeddingsResult g)
  | ImageGeneration request =>
      let! g := execute_image_generation self request in ret (ImageGenerationResult g)
  end.

(** The frame in which the [try] block of an operation starts: the one
    the "request received" event leaves. *)
Definition request_logged (op : Operation) (f : Frame) : Frame :=
  match op with
  | Chat request =>
      snd (chat_request_log "Chat completion request" true request (fr_context f) f)
  | StreamingChat request =>
      snd (chat_request_log "Streaming chat completion request" false request
             (fr_context f) f)
  | Embeddings request =>
      snd (plain_request_log "Embeddings request" (emb_model request) (fr_context f) f)
  | ImageGeneration request =>
      snd (plain_request_log "Image generation request" (img_model request)
             (fr_context f) f)
  end.

(** The [try] block of an operation, run in the frame [f] the operation
    is called in. *)
Definition operation_try (self : RequestExecutor) (op : Operation) (f : Frame)
    : Outcome OperationResult * Frame :=
  match op with
  | Chat request =>
      (let! g := chat_completion_try self request (fr_context f) in ret (ChatResult g))
        (request_logged op f)
  | StreamingChat request =>
      (do! streaming_chat_completion_try self request (fr_context f) in
       ret StreamingChatResult) (request_logged op f)
  | Embeddings request =>
      (let! g := embeddings_try self request (fr_context f) in ret (EmbeddingsResult g))
        (request_logged op f)
  | ImageGeneration request =>
      (let! g := image_generation_try self request (fr_context f) in
       ret (ImageGenerationResult g)) (request_logged op f)
  end.

(** The usage records the storage holds in a frame. *)
Definition usage_of (f : Frame) : list UsageRecord := usage_records (fr_world f).

(** The context of a chat call once routing has run in frame [f]: the
    target's model and provider written into it when routing returned a
    target, the context as it was when routing raised. *)
Definition resolved_context (self : RequestExecutor) (request : ChatCompletionRequest)
    (f : Frame) : RequestContext :=
  match fst (route_chat_request (routing_engine self) request (Some (fr_context f))
               (fr_world f)) with
  | Return target => context_with_target target (fr_context f)
  | Raise _ => fr_context f
  end.

(** The word-count estimate of the output of a stream. *)
Definition choice_estimate (choice : ChatCompletionStreamResponseChoice) : Z :=
  match delta choice !! "content" with
  | Some (VStr text) => word_count text / 3
  | _ => 0
  end.

Definition chunk_estimate (chunk : ChatCompletionStreamResponse) : Z :=
  foldr (fun choice n => choice_estimate choice + n)%Z 0%Z (chunk_choices chunk).

Definition output_estimate (chunks : list ChatCompletionStreamResponse) : Z :=
  foldr (fun chunk n => chunk_estimate chunk + n)%Z 0%Z chunks.

End Gateway.

(** ** gateway/providers/anthropic.py *)

(** error_message.lower(), on ASCII letters *)
Definition lower_char (c : ascii) : ascii :=
  let n := nat_of_ascii c in
  if ((65 <=? n) && (n <=? 90))%nat then ascii_of_nat (n + 32) else c.

Fixpoint lower (s : string) : string :=
  match s with
  | EmptyString => EmptyString
  | String c rest => String (lower_char c) (lower rest)
  end.

(** needle in hay *)
Fixpoint is_substring (needle hay : string) : bool :=
  String.prefix needle hay
  || match hay with
     | EmptyString => false
     | String _ rest => is_substring needle rest
     end.

Module AnthropicProvider.

(** What the Anthropic SDK hands back. *)
Record AnthropicUsage := {
  input_tokens : Z;
  output_tokens : Z
}.

Record AnthropicMessage := {
  msg_id : string;
  msg_model : string;
  msg_content : list string;          (* the text of each content block *)
  msg_stop_reason : option string;
  msg_usage : AnthropicUsage
}.

Inductive AnthropicEvent :=
  | content_block_delta (text : string)
  | tool_use (id name arguments : string)
  | message_stop (stop_reason : option string) (usage : option AnthropicUsage)
  | other_event.

(** The client of the adapter.  [_convert_messages], [_prepare_tools]
    and the optional parameters build the arguments of
    [client.messages.create] from the request inside the guarded
    block; the client is given the request itself, and an exception of
    that preparation counts as one of the call.  A streaming call
    either fails at once or returns a stream: some events, then the
    end of the stream or an exception. *)
Record AsyncAnthropic := {
  messages_create : ChatCompletionRequest → Outcome AnthropicMessage;
  messages_create_stream :
    ChatCompletionRequest → Outcome (list AnthropicEvent * option PyException)
}.

Record t := {
  client : AsyncAnthropic;
  timestamp : string                  (* datetime.now().timestamp(), printed *)
}.

Definition _map_stop_reason (stop_reason : option string) : option FinishReason :=
  match stop_reason with
  | None => None
  | Some r =>
      if r =? "" then None
      else if r =? "end_turn" then Some STOP
      else if r =? "max_tokens" then Some LENGTH
      else if r =? "tool_use" then Some TOOL_CALLS
      else if is_substring "content_filter" r then Some CONTENT_FILTER
      else Some STOP
  end.

(** The clause [except Exception as e] of both chat operations: the
    exception raised in place of [e]. *)
Definition classify (e : PyException) : PyException :=
  let error_message := str_of_exception e in
  if is_substring "authentication" (lower error_message)
     || is_substring "api key" (lower error_message) then
    error AuthenticationError ("Anthropic authentication error: " ++ error_message)
  else if is_substring "rate limit" (lower error_message) then
    error RateLimitExceededError ("Anthropic rate limit exceeded: " ++ error_message)
  else
    error ProviderError ("Anthropic error: " ++ error_message).

Definition create_chat_completion (self : t) (request : ChatCompletionRequest)
    : Outcome ChatCompletionResponse :=
  match messages_create (client self) request with
  | Return response =>
      let content := match msg_content response with
                     | text :: _ => text
                     | [] => ""
                     end in
      let message := {| role := ASSISTANT; content := Text content |} in
      let choices := [{| choice_index := 0; choice_message := message;
                         choice_finish_reason := _map_stop_reason (msg_stop_reason response) |}] in
      let usage := {| prompt_tokens := input_tokens (msg_usage response);
                      completion_tokens := output_tokens (msg_usage response);
                      total_tokens := input_tokens (msg_usage response)
                                      + output_tokens (msg_usage response) |} in
      Return {| resp_id := "chatcmpl-" ++ msg_id response;
                resp_model := msg_model response;
                resp_choices := choices;
                resp_usage := Some usage |}
  | Raise e => Raise (classify e)
  end.

(** The chunk, if any, that one event of the upstream stream becomes. *)
Definition convert_event (self : t) (request : ChatCompletionRequest)
    (chunk : AnthropicEvent) : option ChatCompletionStreamResponse :=
  let completion_id := ("chatcmpl-anthropic-" ++ timestamp self)%string in
  let model := py_str (req_model request) in
  match chunk with
  | content_block_delta text =>
      Some {| chunk_id := completion_id; chunk_model := model;
              chunk_choices := [{| delta_index := 0;
                                   delta := {["content" := VStr text]};
                                   delta_finish_reason := None |}];
              chunk_usage := None |}
  | tool_use id name arguments =>
      Some {| chunk_id := completion_id; chunk_model := model;
              chunk_choices := [{| delta_index := 0;
                                   delta := {["tool_calls" := VOther true arguments]};
                                   delta_finish_reason := None |}];
              chunk_usage := None |}
  | message_stop stop_reason usage =>
      Some {| chunk_id := completion_id; chunk_model := model;
              chunk_choices := [{| delta_index := 0;
                                   delta := ∅;
                                   delta_finish_reason := _map_stop_reason stop_reason |}];
              chunk_usage :=
                match usage with
                | Some u => Some {| prompt_tokens := input_tokens u;
                                    completion_tokens := output_tokens u;
                                    total_tokens := input_tokens u + output_tokens u |}
                | None => None
                end |}
  | other_event => None
  end.

Definition create_streaming_chat_completion (self : t) (request : ChatCompletionRequest)
    : list ChatCompletionStreamResponse * option PyException :=
  match messages_create_stream (client self) request with
  | Raise e => ([], Some (classify e))
  | Return (events, stop) =>
      (omap (convert_event self request) events,
       match stop with
       | Some e => Some (classify e)
       | None => None
       end)
  end.

Definition create_embeddings (self : t) (request : EmbeddingRequest)
    : Outcome EmbeddingResponse :=
  Raise (error ProviderError "Anthropic embeddings are not supported").

Definition create_image (self : t) (request : ImageGenerationRequest)
    : Outcome ImageGenerationResponse :=
  Raise (error ProviderError "Anthropic image generation is not supported").

(** The adapter seen through the provider interface. *)
Definition as_provider (self : t) : Provider :=
  Build_Provider (create_chat_completion self)
                 (create_streaming_chat_completion self)
                 (create_embeddings self)
                 (create_image self).

End AnthropicProvider.

(** ** The two number systems *)

(** IEEE binary64, the [float] of the interpreter. *)
#[export] Instance float_number : Number float := {|
  num_zero := 0%float;
  num_hundred := 100%float;
  num_add := PrimFloat.add;
  num_mul := PrimFloat.mul;
  num_div := PrimFloat.div;
  num_eqb := PrimFloat.eqb;
  num_leb := PrimFloat.leb;
  num_unit := fun k => PrimFloat.mul (PrimFloat.of_uint63 (Uint63.of_Z (Z.of_N k))) 0x1p-53%float
|}.

(** Exact rationals: the same operations without rounding or overflow. *)
#[export] Instance exact_number : Number Q := {|
  num_zero := 0%Q;
  num_hundred := 100%Q;
  num_add := Qplus;
  num_mul := Qmult;
  num_div := Qdiv;
  num_eqb := Qeq_bool;
  num_leb := Qle_bool;
  num_unit := fun k => (inject_Z (Z.of_N k) / inject_Z (2 ^ 53))%Q
|}.

(** * Properties of the routing engine *)

Section RoutingProperties.

Context {num : Type} `{Number num}.

Implicit Types (self : RoutingEngine (num := num)) (router : Router (num := num))
  (request : ChatCompletionRequest) (context : option RequestContext) (w : World).

(** A model identifier that refers to a router. *)
Definition router_reference (nm : string) : Value := VStr ("router/" ++ nm).

Lemma router_reference_prefix nm : String.prefix "router/" ("router/" ++ nm) = true.
Proof. cbn. by destruct nm. Qed.

Lemma router_reference_name nm : snd (split_slash_1 ("router/" ++ nm)) = Some nm.
Proof. reflexivity. Qed.

(** A request for a known router is resolved by that router's strategy. *)
Lemma route_router_reference self router request context nm :
  req_model request = router_reference nm →
  get_router self nm = Some router →
  route_chat_request self request context
  = _apply_routing_strategy self router request context.
Proof.
  intros Hm Hr. unfold route_chat_request, router_reference in *.
  rewrite Hm, router_reference_prefix, router_reference_name, Hr. reflexivity.
Qed.

Lemma no_targets_nil router : targets router = [] → no_targets router = true.
Proof. unfold no_targets. by intros ->. Qed.

Lemma no_targets_cons router t ts : targets router = t :: ts → no_targets router = false.
Proof. unfold no_targets. by intros ->. Qed.

(** random.choice on a non-empty list consumes one draw and returns one
    of the list's elements. *)
Lemma random_choice_member (seq : list Target) w :
  seq ≠ [] →
  ∃ t, t ∈ seq
       ∧ random_choice seq w = (Return t, set_random (advance (random_state w)) w).
Proof.
  intros Hne. destruct seq as [|t0 ts]; [done|].
  unfold random_choice.
  set (i := (N.to_nat (next_draw (random_state w)) mod length (t0 :: ts))%nat).
  assert (Hi : (i < length (t0 :: ts))%nat)
    by (apply Nat.mod_upper_bound; simpl; lia).
  destruct (lookup_lt_is_Some_2 _ _ Hi) as [t Ht].
  exists t. split; [by eapply list_elem_of_lookup_2|].
  by rewrite Ht.
Qed.

(** ** Routers without targets *)

(** C5. A router whose list of targets is empty makes every strategy
    (fallback, percentage, random, optimized), the strategy dispatch and
    route_chat_request raise a RouterError; no target is returned and the
    process state is left as it was. *)
Theorem empty_router_raises self router request context w :
  targets router = [] →
  exc_class (no_targets_error router) = RouterError
  ∧ _apply_fallback_strategy self router request context w
    = (Raise (no_targets_error router), w)
  ∧ _apply_percentage_strategy self router request context w
    = (Raise (no_targets_error router), w)
  ∧ _apply_random_strategy self router request context w
    = (Raise (no_targets_error router), w)
  ∧ _apply_optimized_strategy self router request context w
    = (Raise (no_targets_error router), w)
  ∧ _apply_routing_strategy self router request context w
    = (Raise (no_targets_error router), w)
  ∧ ∀ nm, req_model request = router_reference nm →
          get_router self nm = Some router →
          route_chat_request self request context w
          = (Raise (no_targets_error router), w).
Proof.
  intros Hnil. pose proof (no_targets_nil _ Hnil) as Hno.
  split; [reflexivity|].
  unfold _apply_fallback_strategy, _apply_percentage_strategy,
    _apply_random_strategy, _apply_optimized_strategy, _apply_routing_strategy.
  rewrite Hno. repeat split.
  intros nm Hm Hr. rewrite (route_router_reference _ _ _ _ _ Hm Hr).
  unfold _apply_routing_strategy. by rewrite Hno.
Qed.

(** ** The fallback strategy *)

(** C6. For a router with the fallback strategy and at least one target,
    the strategy, the dispatch and route_chat_request return the first
    target, whatever the request, the context and the process state are,
    and they leave the process state unchanged, so that a repeated call
    gives the same answer. *)
Theorem fallback_returns_first self router request context w t ts :
  strategy router = FallbackStrategy →
  targets router = t :: ts →
  _apply_fallback_strategy self router request context w = (Return t, w)
  ∧ _apply_routing_strategy self router request context w = (Return t, w)
  ∧ (∀ request' context',
       (do! _apply_routing_strategy self router request context in
        _apply_routing_strategy self router request' context') w = (Return t, w))
  ∧ ∀ nm, req_model request = router_reference nm →
          get_router self nm = Some router →
          route_chat_request self request context w = (Return t, w).
Proof.
  intros Hs Ht. pose proof (no_targets_cons _ _ _ Ht) as Hno.
  assert (Hf : _apply_fallback_strategy self router request context w = (Return t, w)).
  { unfold _apply_fallback_strategy, py_getitem. by rewrite Hno, Ht. }
  assert (Hd : ∀ request context,
             _apply_routing_strategy self router request context w = (Return t, w)).
  { intros request0 context0. unfold _apply_routing_strategy. rewrite Hno, Hs. cbn.
    unfold try_except, _apply_fallback_strategy, py_getitem. by rewrite Hno, Ht. }
  split; [done|]. split; [done|]. split.
  - intros request' context'. unfold bind. by rewrite !Hd.
  - intros nm Hm Hr. by rewrite (route_router_reference _ _ _ _ _ Hm Hr).
Qed.

(** ** The percentage strategy: mismatched weights *)

(** The random generator a computation leaves behind. *)
Definition random_after {A} (r : Outcome A * World) : RandomState := random_state (snd r).

(** C7. For a percentage router whose list of weights has another length
    than its list of targets, the strategy, the dispatch and
    route_chat_request raise a RouterError, and the random generator is
    in the state it was in before the call: no draw was taken. *)
Theorem percentage_mismatch_raises self router request context w ws :
  strategy router = PercentageStrategy ws →
  length ws ≠ length (targets router) →
  (∃ msg, _apply_percentage_strategy self router request context w
          = (Raise (error RouterError msg), w))
  ∧ (∃ msg w', _apply_routing_strategy self router request context w
               = (Raise (error RouterError msg), w')
               ∧ random_state w' = random_state w)
  ∧ ∀ nm, req_model request = router_reference nm →
          get_router self nm = Some router →
          ∃ msg w', route_chat_request self request context w
                    = (Raise (error RouterError msg), w')
                    ∧ random_state w' = random_state w.
Proof.
  intros Hs Hlen.
  assert (Hp : ∃ msg, _apply_percentage_strategy self router request context w
                      = (Raise (error RouterError msg), w)).
  { unfold _apply_percentage_strategy.
    destruct (no_targets router); [by eexists|].
    rewrite Hs. cbn.
    destruct (Nat.eqb_spec (length ws) (length (targets router))); [done|].
    cbn. by eexists. }
  assert (Hd : ∃ msg w', _apply_routing_strategy self router request context w
                         = (Raise (error RouterError msg), w')
                         ∧ random_state w' = random_state w).
  { unfold _apply_routing_strategy.
    destruct (no_targets router); [by eexists _, _|].
    rewrite Hs. cbn. destruct Hp as [msg Hp].
    unfold try_except. rewrite Hp. cbn. by eexists _, _. }
  split; [done|]. split; [done|].
  intros nm Hm Hr. by rewrite (route_router_reference _ _ _ _ _ Hm Hr).
Qed.

(** ** The percentage strategy: selection *)

(** The selection algorithm, in the words of the specification:
    normalize the weights to sum to 100 if they do not already, walk the
    cumulative weights in target order, return the first target whose
    cumulative weight is greater than or equal to the draw, and the last
    target if there is none. *)
Definition spec_normalize (weights : list num) : list num :=
  let total := py_sum weights in
  if num_eqb total num_hundred then weights
  else (fun p => num_div (num_mul p num_hundred) total) <$> weights.

Fixpoint spec_first_reaching (draw cumulative : num)
    (candidates : list (Target * num)) : option Target :=
  match candidates with
  | [] => None
  | (t, weight) :: rest =>
      let cumulative := num_add cumulative weight in
      if num_leb draw cumulative then Some t
      else spec_first_reaching draw cumulative rest
  end.

Definition spec_percentage_selection (tgts : list Target) (weights : list num)
    (draw : num) : option Target :=
  match spec_first_reaching draw num_zero (zip tgts (spec_normalize weights)) with
  | Some t => Some t
  | None => last tgts
  end.

(** The value random.uniform(0, 100) returns in a given generator state. *)
Definition uniform_draw (st : RandomState) : num :=
  num_add num_zero (num_mul num_hundred (num_unit (next_draw st mod 2 ^ 53)%N)).

Lemma random_uniform_0_100_draw w :
  random_uniform_0_100 w
  = (Return (uniform_draw (random_state w)), set_random (advance (random_state w)) w).
Proof. reflexivity. Qed.

Lemma normalize_nonzero (ps : list num) (total : num) :
  num_eqb total num_zero = false →
  normalize ps total = Return ((fun p => num_div (num_mul p num_hundred) total) <$> ps).
Proof.
  intros Hz. induction ps as [|p ps IH]; [done|].
  cbn. unfold py_truediv. rewrite Hz, IH. reflexivity.
Qed.

(** The loop over [enumerate(percentages)] and the walk over the pairs of
    a target and its weight find the same target. *)
Lemma percentage_loop_spec (tgts : list Target) (r : num) w :
  tgts ≠ [] →
  ∀ (ps : list num) (i : nat) (cumulative : num),
    (i + length ps = length tgts)%nat →
    ∃ t, match spec_first_reaching r cumulative (zip (drop i tgts) ps) with
         | Some t => Some t
         | None => last tgts
         end = Some t
       ∧ percentage_loop tgts r cumulative i ps w = (Return t, w).
Proof.
  intros Hne ps. induction ps as [|p ps IH]; intros i cumulative Hlen.
  - rewrite zip_with_nil_r. cbn.
    destruct (last tgts) as [t|] eqn:Hl.
    + exists t. split; [done|]. unfold py_last. by rewrite Hl.
    + apply last_None in Hl. done.
  - cbn in Hlen.
    assert (Hi : (i < length tgts)%nat) by lia.
    destruct (lookup_lt_is_Some_2 _ _ Hi) as [ti Hti].
    rewrite (drop_S _ _ _ Hti). cbn.
    destruct (num_leb r (num_add cumulative p)).
    + exists ti. split; [done|]. unfold py_getitem. by rewrite Hti.
    + apply IH. lia.
Qed.

(** C3 (as the code has it). For a percentage router with at least one
    target, as many weights as targets, and weights whose sum is 100 or
    at least is not zero, the strategy takes one value from
    random.uniform(0, 100) and returns the target the algorithm of the
    specification selects for that value: after normalizing the weights
    to sum to 100 if they do not already, the first target, in target
    order, whose cumulative weight is greater than or equal to the
    draw, and the last target if there is none. *)
Theorem percentage_selection self router request context w ws :
  strategy router = PercentageStrategy ws →
  targets router ≠ [] →
  length ws = length (targets router) →
  (num_eqb (py_sum ws) num_hundred = true ∨ num_eqb (py_sum ws) num_zero = false) →
  ∃ t, spec_percentage_selection (targets router) ws (uniform_draw (random_state w)) = Some t
       ∧ _apply_percentage_strategy self router request context w
         = (Return t, set_random (advance (random_state w)) w)
       ∧ _apply_routing_strategy self router request context w
         = (Return t, set_random (advance (random_state w)) w).
Proof.
  intros Hs Hne Hlen Hsum.
  assert (Hno : no_targets router = false).
  { unfold no_targets. by destruct (targets router). }
  assert (Hnorm : (if negb (num_eqb (py_sum ws) num_hundred)
                   then lift_outcome (normalize ws (py_sum ws))
                   else ret ws) w
                  = (Return (spec_normalize ws), w)).
  { unfold spec_normalize.
    destruct (num_eqb (py_sum ws) num_hundred) eqn:Hh; cbn; [done|].
    destruct Hsum as [|Hz]; [done|].
    unfold lift_outcome. by rewrite (normalize_nonzero _ _ Hz). }
  assert (Hl : length (spec_normalize ws) = length (targets router)).
  { unfold spec_normalize. destruct (num_eqb _ _); [done|]. by rewrite length_fmap. }
  destruct (percentage_loop_spec (targets router) (uniform_draw (random_state w))
              (set_random (advance (random_state w)) w) Hne
              (spec_normalize ws) 0 num_zero) as (t & Hsel & Hloop); [by rewrite Hl|].
  exists t.
  assert (Hp : _apply_percentage_strategy self router request context w
               = (Return t, set_random (advance (random_state w)) w)).
  { unfold _apply_percentage_strategy. rewrite Hno, Hs. cbn.
    rewrite Hlen, Nat.eqb_refl. cbn.
    unfold bind at 1. rewrite Hnorm.
    unfold bind. rewrite random_uniform_0_100_draw. exact Hloop. }
  split; [exact Hsel|]. split; [exact Hp|].
  unfold _apply_routing_strategy. rewrite Hno, Hs. cbn.
  unfold try_except. by rewrite Hp.
Qed.

(** ** The random and the optimized strategy *)

(** C8. For a router with at least one target and the random strategy,
    or the optimized strategy (which has no metrics source and chooses
    at random), the strategy, the dispatch and route_chat_request return
    a target, and that target is an element of the router's targets. *)
Theorem random_and_optimized_pick_member self router request context w :
  targets router ≠ [] →
  (strategy router = RandomStrategy ∨ ∃ m, strategy router = OptimizedStrategy m) →
  (∃ t w', t ∈ targets router
           ∧ _apply_routing_strategy self router request context w = (Return t, w'))
  ∧ (strategy router = RandomStrategy →
     ∃ t w', t ∈ targets router
             ∧ _apply_random_strategy self router request context w = (Return t, w'))
  ∧ ((∃ m, strategy router = OptimizedStrategy m) →
     ∃ t w', t ∈ targets router
             ∧ _apply_optimized_strategy self router request context w = (Return t, w'))
  ∧ ∀ nm, req_model request = router_reference nm →
          get_router self nm = Some router →
          ∃ t w', t ∈ targets router
                  ∧ route_chat_request self request context w = (Return t, w').
Proof.
  intros Hne Hs.
  assert (Hno : no_targets router = false).
  { unfold no_targets. by destruct (targets router). }
  assert (Hr : strategy router = RandomStrategy →
               ∃ t w', t ∈ targets router
                       ∧ _apply_random_strategy self router request context w
                         = (Return t, w')).
  { intros _. unfold _apply_random_strategy. rewrite Hno.
    destruct (random_choice_member (targets router) w Hne) as (t & Hin & Hc).
    by eexists _, _. }
  assert (Ho : (∃ m, strategy router = OptimizedStrategy m) →
               ∃ t w', t ∈ targets router
                       ∧ _apply_optimized_strategy self router request context w
                         = (Return t, w')).
  { intros [m Hm]. unfold _apply_optimized_strategy. rewrite Hno, Hm. cbn.
    unfold bind, logging.
    destruct (random_choice_member (targets router)
                (set_log (log w ++ [{| log_level := WARNING;
                    log_message := "Optimized routing strategy not fully implemented, falling back to random";
                    log_extra := [] |}]) w) Hne) as (t & Hin & Hc).
    rewrite Hc. by eexists _, _. }
  assert (Hd : ∃ t w', t ∈ targets router
                       ∧ _apply_routing_strategy self router request context w
                         = (Return t, w')).
  { unfold _apply_routing_strategy. rewrite Hno.
    destruct Hs as [Hs|[m Hs]].
    - destruct (Hr Hs) as (t & w' & Hin & Hc). rewrite Hs. cbn.
      unfold try_except. rewrite Hc. by eexists _, _.
    - destruct (Ho (ex_intro _ m Hs)) as (t & w' & Hin & Hc). rewrite Hs. cbn.
      unfold try_except. rewrite Hc. by eexists _, _. }
  repeat split; [done..|].
  intros nm Hm Hg. by rewrite (route_router_reference _ _ _ _ _ Hm Hg).
Qed.

(** ** Direct requests *)

(** The catalog a lookup of [model_id] consults: the registry's models,
    loaded first if they were not. *)
Definition catalog_for (model_id : string) (w : World) : gmap string ModelDefinition :=
  _models (model_registry (snd (get_model model_id w))).

(** The target of a direct request for a catalog entry. *)
Definition direct_target (m : ModelDefinition) : Target :=
  <["provider" := VStr (provider (inference_provider m))]>
    (<["model" := VStr (model_name (inference_provider m))]> ∅).

(** C1. For a request whose model identifier does not start with
    "router/": when the catalog has an entry for the identifier,
    route_chat_request returns the target made of that entry's upstream
    model name and provider, and nothing else; when the catalog has no
    entry, it raises ModelNotFoundError. *)
Theorem direct_request_resolution self request context w model_id :
  req_model request = VStr model_id →
  String.prefix "router/" model_id = false →
  match catalog_for model_id w !! model_id with
  | Some m =>
      route_chat_request self request context w
      = (Return (direct_target m), snd (get_model model_id w))
      ∧ direct_target m !! "model" = Some (VStr (model_name (inference_provider m)))
      ∧ direct_target m !! "provider" = Some (VStr (provider (inference_provider m)))
      ∧ dom (direct_target m) = {["model"; "provider"]}
  | None =>
      route_chat_request self request context w
      = (Raise (error ModelNotFoundError ("Model not found: " ++ model_id)),
         snd (get_model model_id w))
  end.
Proof.
  intros Hm Hp. unfold route_chat_request, catalog_for. rewrite Hm, Hp.
  unfold bind. unfold get_model at 1 3. cbn.
  destruct (_models _ !! model_id) as [m|] eqn:Hl; cbn.
  - split; [done|]. unfold direct_target.
    split; [by rewrite lookup_insert_ne, lookup_insert_eq|].
    split; [by rewrite lookup_insert_eq|].
    rewrite !dom_insert_L. set_solver.
  - done.
Qed.

End RoutingProperties.

(** * Properties of the request executor *)

Section ExecutorProperties.

Context {num : Type} `{Number num}.

(** Routing never touches the usage storage. *)
Definition keeps_usage {A} (m : Py A) : Prop :=
  ∀ w, usage_records (snd (m w)) = usage_records w.

Lemma keeps_ret {A} (a : A) : keeps_usage (ret a).
Proof. by intros w. Qed.

Lemma keeps_raise {A} e : keeps_usage (raise (A := A) e).
Proof. by intros w. Qed.

Lemma keeps_lift_outcome {A} (o : Outcome A) : keeps_usage (lift_outcome o).
Proof. by intros w. Qed.

Lemma keeps_bind {A B} (m : Py A) (k : A → Py B) :
  keeps_usage m → (∀ a, keeps_usage (k a)) → keeps_usage (bind m k).
Proof.
  intros Hm Hk w. unfold bind. specialize (Hm w).
  destruct (m w) as [[a|e] w']; cbn in *; [|done].
  by rewrite Hk.
Qed.

Lemma keeps_try_except {A} (m : Py A) (h : PyException → Py A) :
  keeps_usage m → (∀ e, keeps_usage (h e)) → keeps_usage (try_except m h).
Proof.
  intros Hm Hh w. unfold try_except. specialize (Hm w).
  destruct (m w) as [[a|e] w']; cbn in *; [done|].
  by rewrite Hh.
Qed.

Lemma keeps_logging lvl msg extra : keeps_usage (logging lvl msg extra).
Proof. by intros w. Qed.

Lemma keeps_random_uniform : keeps_usage random_uniform_0_100.
Proof. by intros w. Qed.

Lemma keeps_random_choice {A} (seq : list A) : keeps_usage (random_choice seq).
Proof.
  intros w. destruct seq as [|x xs]; [done|]. unfold random_choice.
  by destruct (_ !! _).
Qed.

Lemma keeps_py_getitem {A} (seq : list A) i : keeps_usage (py_getitem seq i).
Proof. intros w. unfold py_getitem. by destruct (_ !! _). Qed.

Lemma keeps_py_last {A} (seq : list A) : keeps_usage (py_last seq).
Proof. intros w. unfold py_last. by destruct (last _). Qed.

Lemma keeps_percentage_loop tgts r ps : ∀ cumulative i,
  keeps_usage (percentage_loop tgts r cumulative i ps).
Proof.
  induction ps as [|p ps IH]; intros cumulative i; cbn.
  - apply keeps_py_last.
  - destruct (num_leb _ _); [apply keeps_py_getitem | apply IH].
Qed.

Lemma keeps_get_model model_id : keeps_usage (get_model model_id).
Proof.
  intros w. unfold get_model, load_models. cbn.
  destruct (_loaded (model_registry w)); [done|].
  by destruct (models_yaml w).
Qed.

Create HintDb keeps discriminated.
#[local] Hint Resolve keeps_ret keeps_raise keeps_lift_outcome keeps_logging
  keeps_random_uniform keeps_random_choice keeps_py_getitem keeps_py_last
  keeps_percentage_loop keeps_get_model : keeps.

Ltac keeps_step :=
  match goal with
  | |- keeps_usage (bind _ _) => apply keeps_bind; [|intros ?]
  | |- keeps_usage (try_except _ _) => apply keeps_try_except; [|intros ?]
  | |- keeps_usage (if ?b then _ else _) => destruct b
  | |- keeps_usage (match ?x with _ => _ end) => destruct x
  | |- keeps_usage _ => solve [eauto with keeps]
  end.

Lemma keeps_route_chat_request (self : RoutingEngine (num := num)) request context :
  keeps_usage (route_chat_request self request context).
Proof.
  unfold route_chat_request, _apply_routing_strategy, _apply_fallback_strategy,
    _apply_percentage_strategy, _apply_random_strategy, _apply_optimized_strategy.
  repeat keeps_step.
Qed.


Implicit Types (self : RequestExecutor (num := num)) (f : Frame).

Lemma resolve_chat_frame self request update f o f' :
  resolve_chat self request update f = (o, f') →
  usage_of f' = usage_of f
  ∧ fr_yielded f' = fr_yielded f
  ∧ fr_context f' = resolved_context self request f.
Proof.
  unfold resolve_chat, resolved_context, usage_of, bind, get_context, in_world,
    with_target, get_provider.
  pose proof (keeps_route_chat_request (routing_engine self) request
                (Some (fr_context f)) (fr_world f)) as Hk.
  destruct (route_chat_request _ _ _ _) as [[target|e] w']; cbn in *.
  - destruct (truthy _); cbn.
    + destruct (default VNone (target !! "provider")) as [| | |s|];
        try (intros [= <- <-]; done).
      destruct (provider_registry w' !! s); intros [= <- <-]; done.
    + intros [= <- <-]; done.
  - intros [= <- <-]; done.
Qed.

Lemma chat_completion_try_raises self request context f e f' :
  chat_completion_try self request context f = (Raise e, f') →
  usage_of f' = usage_of f ∧ fr_context f' = resolved_context self request f.
Proof.
  unfold chat_completion_try. unfold bind at 1.
  destruct (resolve_chat _ _ _ _) as [[[[[pn prov] mn] mr]|e0] f1] eqn:Hr;
    apply resolve_chat_frame in Hr as (Hu & _ & Hc).
  - unfold bind at 1, lift_outcome.
    destruct (create_chat_completion prov mr) as [response|e1].
    + destruct (usage_storage self), (resp_usage response); cbn; discriminate.
    + intros [= <- <-]. done.
  - intros [= <- <-]. done.
Qed.


Lemma count_choices_estimate choices : ∀ acc n,
  count_choices choices acc = Return n →
  n = (acc + foldr (fun choice n => choice_estimate choice + n) 0 choices)%Z.
Proof.
  induction choices as [|c cs IH]; intros acc n; cbn.
  - intros [= <-]. lia.
  - unfold choice_estimate at 1.
    destruct (delta c !! "content") as [v|]; cbn.
    + destruct (truthy v) eqn:Hv.
      * destruct v; try discriminate. intros Hn. apply IH in Hn. lia.
      * intros Hn. apply IH in Hn.
        destruct v as [| | |s|]; try lia.
        cbn in Hv. apply negb_false_iff, String.eqb_eq in Hv. subst s.
        change (word_count "" `div` 3)%Z with 0%Z. lia.
    + intros Hn. apply IH in Hn. lia.
Qed.

Lemma stream_loop_frame chunks stop : ∀ acc f o f',
  stream_loop chunks stop acc f = (o, f') →
  usage_of f' = usage_of f
  ∧ fr_context f' = fr_context f
  ∧ fr_world f' = fr_world f
  ∧ ∀ n, o = Return n →
         n = (acc + output_estimate chunks)%Z
         ∧ fr_yielded f' = fr_yielded f ++ chunks
         ∧ stop = None.
Proof.
  induction chunks as [|c cs IH]; intros acc f o f'; cbn.
  - destruct stop; intros [= <- <-]; (split; [done|split; [done|split; [done|]]]);
      intros n [= <-]. rewrite app_nil_r. repeat split; [lia|done..].
  - destruct (count_choices (chunk_choices c) acc) as [n1|e] eqn:Hc.
    + intros Hl. apply IH in Hl as (Hu & Hx & Hw & Hr). cbn in *.
      split; [done|split; [done|split; [done|]]].
      intros n Hn. destruct (Hr n Hn) as (-> & Hy & Hs).
      apply count_choices_estimate in Hc. fold (output_estimate cs).
      unfold chunk_estimate. rewrite Hy, <- app_assoc.
      repeat split; [lia|done..].
    + intros [= <- <-]. split; [done|split; [done|split; [done|]]]. intros n [=].
Qed.

Lemma streaming_try_raises self request context f e f' :
  streaming_chat_completion_try self request context f = (Raise e, f') →
  usage_of f' = usage_of f ∧ fr_context f' = resolved_context self request f.
Proof.
  unfold streaming_chat_completion_try. unfold bind at 1.
  destruct (resolve_chat _ _ _ _) as [[[[[pn prov] mn] mr]|e0] f1] eqn:Hr;
    apply resolve_chat_frame in Hr as (Hu & _ & Hc).
  - destruct (create_streaming_chat_completion prov mr) as [chunks stop].
    unfold bind at 1.
    destruct (stream_loop chunks stop 0 f1) as [[n|e1] f2] eqn:Hl;
      apply stream_loop_frame in Hl as (Hu2 & Hc2 & _ & _).
    + destruct (usage_storage self); cbn; discriminate.
    + intros [= <- <-]. split; congruence.
  - intros [= <- <-]. done.
Qed.

Lemma resolve_direct_frame requested f o f' :
  resolve_direct requested f = (o, f') →
  usage_of f' = usage_of f ∧ fr_context f' = fr_context f ∧ fr_yielded f' = fr_yielded f.
Proof.
  unfold resolve_direct, usage_of, bind, in_world, get_provider.
  pose proof (keeps_get_model requested (fr_world f)) as Hk.
  destruct (get_model requested (fr_world f)) as [[[m|]|e] w']; cbn in *.
  - destruct (provider_registry w' !! _); intros [= <- <-]; done.
  - intros [= <- <-]; done.
  - intros [= <- <-]; done.
Qed.

Lemma embeddings_try_raises self request context f e f' :
  embeddings_try self request context f = (Raise e, f') →
  usage_of f' = usage_of f ∧ fr_context f' = fr_context f.
Proof.
  unfold embeddings_try. unfold bind at 1.
  destruct (resolve_direct _ _) as [[[pn prov]|e0] f1] eqn:Hr;
    apply resolve_direct_frame in Hr as (Hu & Hc & _).
  - unfold bind at 1, lift_outcome.
    destruct (create_embeddings prov request) as [response|e1].
    + destruct (usage_storage self); cbn; discriminate.
    + intros [= <- <-]. done.
  - intros [= <- <-]. done.
Qed.

Lemma image_generation_try_raises self request context f e f' :
  image_generation_try self request context f = (Raise e, f') →
  usage_of f' = usage_of f ∧ fr_context f' = fr_context f.
Proof.
  unfold image_generation_try. unfold bind at 1.
  destruct (resolve_direct _ _) as [[[pn prov]|e0] f1] eqn:Hr;
    apply resolve_direct_frame in Hr as (Hu & Hc & _).
  - unfold bind at 1, lift_outcome.
    destruct (create_image prov request) as [response|e1].
    + destruct (usage_storage self); cbn; discriminate.
    + intros [= <- <-]. done.
  - intros [= <- <-]. done.
Qed.

(** What the handler of a failed operation leaves behind. *)
Definition failure_record (e : PyException) (r : UsageRecord) : Prop :=
  rec_success r = false
  ∧ rec_input_tokens r = 0%Z
  ∧ rec_output_tokens r = 0%Z
  ∧ rec_total_tokens r = 0%Z
  ∧ rec_error r = Some (str_of_exception e).

Lemma on_failure_records self storage what requested rec_model_of with_thread e
    (A : Type) f :
  usage_storage self = Some storage →
  ∃ r f1, on_failure self what requested rec_model_of with_thread e (A := A) f
          = (Raise e, f1)
          ∧ usage_of f1 = usage_of f ++ [r]
          ∧ fr_context f1 = fr_context f
          ∧ failure_record e r
          ∧ rec_provider r = py_or (target_provider (fr_context f)) (VStr "unknown")
          ∧ rec_model r = rec_model_of (fr_context f).
Proof.
  intros Hs. unfold on_failure. rewrite Hs. cbn.
  eexists _, _. split; [reflexivity|]. cbn. repeat split.
Qed.


Lemma request_logged_frame op f :
  usage_of (request_logged op f) = usage_of f
  ∧ fr_context (request_logged op f) = fr_context f
  ∧ fr_yielded (request_logged op f) = fr_yielded f.
Proof. by destruct op. Qed.

Lemma execute_chat_completion_steps self request f :
  execute_chat_completion self request f
  = try_except (chat_completion_try self request (fr_context f))
      (fun e => on_failure self "Chat completion" (req_model request)
                  (fun context => py_or (target_model context) (req_model request)) true e)
      (request_logged (Chat request) f).
Proof. reflexivity. Qed.

Lemma execute_streaming_chat_completion_steps self request f :
  execute_streaming_chat_completion self request f
  = try_except (streaming_chat_completion_try self request (fr_context f))
      (fun e => on_failure self "Streaming chat completion" (req_model request)
                  (fun context => py_or (target_model context) (req_model request)) true e)
      (request_logged (StreamingChat request) f).
Proof. reflexivity. Qed.

Lemma execute_embeddings_steps self request f :
  execute_embeddings self request f
  = try_except (embeddings_try self request (fr_context f))
      (fun e => on_failure self "Embeddings" (VStr (emb_model request))
                  (fun _ => VStr (emb_model request)) false e)
      (request_logged (Embeddings request) f).
Proof. reflexivity. Qed.

Lemma execute_image_generation_steps self request f :
  execute_image_generation self request f
  = try_except (image_generation_try self request (fr_context f))
      (fun e => on_failure self "Image generation" (VStr (img_model request))
                  (fun _ => VStr (img_model request)) false e)
      (request_logged (ImageGeneration request) f).
Proof. reflexivity. Qed.

(** The context object when the [try] block of an operation has raised:
    the chat operations write the routed target into it, the embeddings
    and image operations leave it as it was. *)
Definition context_at_failure self (op : Operation) (f0 : Frame) : RequestContext :=
  match op with
  | Chat request | StreamingChat request =>
      resolved_context self request (request_logged op f0)
  | Embeddings _ | ImageGeneration _ => fr_context f0
  end.

(** The model a failure record names, given the context at the failure. *)
Definition failure_model (op : Operation) (context : RequestContext) : Value :=
  match op with
  | Chat request | StreamingChat request =>
      py_or (target_model context) (req_model request)
  | Embeddings request => VStr (emb_model request)
  | ImageGeneration request => VStr (img_model request)
  end.

Lemma failure_record_written self storage op f0 e :
  usage_storage self = Some storage →
  fst (operation_try self op f0) = Raise e →
  ∃ f1 r, run_operation self op f0 = (Raise e, f1)
          ∧ usage_of f1 = usage_of f0 ++ [r]
          ∧ failure_record e r
          ∧ rec_provider r
            = py_or (target_provider (context_at_failure self op f0)) (VStr "unknown")
          ∧ rec_model r = failure_model op (context_at_failure self op f0).
Proof.
  intros Hs Ht.
  destruct (request_logged_frame op f0) as (Hu0 & Hc0 & _).
  destruct op as [request|request|request|request];
    unfold operation_try in Ht; unfold bind in Ht; unfold run_operation, bind.
  - rewrite execute_chat_completion_steps. unfold try_except.
    destruct (chat_completion_try _ _ _ _) as [[g|e'] f'] eqn:Hb; [done|].
    cbn in Ht. injection Ht as ->.
    apply chat_completion_try_raises in Hb as (Hu & Hc).
    edestruct (on_failure_records self storage) as (r & f1 & -> & Hu1 & _ & Hf & Hp & Hm);
      [done|].
    exists f1, r. split; [done|]. split; [by rewrite Hu1, Hu, Hu0|].
    split; [done|]. rewrite Hc in Hp, Hm. by split.
  - rewrite execute_streaming_chat_completion_steps. unfold try_except.
    destruct (streaming_chat_completion_try _ _ _ _) as [[g|e'] f'] eqn:Hb; [done|].
    cbn in Ht. injection Ht as ->.
    apply streaming_try_raises in Hb as (Hu & Hc).
    edestruct (on_failure_records self storage) as (r & f1 & -> & Hu1 & _ & Hf & Hp & Hm);
      [done|].
    exists f1, r. split; [done|]. split; [by rewrite Hu1, Hu, Hu0|].
    split; [done|]. rewrite Hc in Hp, Hm. by split.
  - rewrite execute_embeddings_steps. unfold try_except.
    destruct (embeddings_try _ _ _ _) as [[g|e'] f'] eqn:Hb; [done|].
    cbn in Ht. injection Ht as ->.
    apply embeddings_try_raises in Hb as (Hu & Hc).
    edestruct (on_failure_records self storage) as (r & f1 & -> & Hu1 & _ & Hf & Hp & Hm);
      [done|].
    exists f1, r. split; [done|]. split; [by rewrite Hu1, Hu, Hu0|].
    split; [done|]. rewrite Hc, Hc0 in Hp. by split.
  - rewrite execute_image_generation_steps. unfold try_except.
    destruct (image_generation_try _ _ _ _) as [[g|e'] f'] eqn:Hb; [done|].
    cbn in Ht. injection Ht as ->.
    apply image_generation_try_raises in Hb as (Hu & Hc).
    edestruct (on_failure_records self storage) as (r & f1 & -> & Hu1 & _ & Hf & Hp & Hm);
      [done|].
    exists f1, r. split; [done|]. split; [by rewrite Hu1, Hu, Hu0|].
    split; [done|]. rewrite Hc, Hc0 in Hp. by split.
Qed.

(** How a failure record is attributed. *)
Definition failure_attribution self (op : Operation) (f0 : Frame) (r : UsageRecord) : Prop :=
  match op with
  | Chat request | StreamingChat request =>
      let context := resolved_context self request (request_logged op f0) in
      rec_provider r = py_or (target_provider context) (VStr "unknown")
      ∧ rec_model r = py_or (target_model context) (req_model request)
  | Embeddings request => rec_model r = VStr (emb_model request)
  | ImageGeneration request => rec_model r = VStr (img_model request)
  end.

(** C2 (as the code has it). When a usage storage is configured and the
    [try] block of an operation (chat, streaming chat, embeddings,
    image) raises an exception [e], the operation raises that same [e],
    and the storage holds exactly one record more than before: it has
    success = false, input, output and total token counts 0 and the
    message of [e] as its error.  For the two chat operations it is
    attributed to the context's target provider, or to "unknown" when
    the context has none, and to the context's target model, or to the
    model identifier of the request when the context has none; the
    context carries the target's provider and model once routing has
    returned a target.  For the embeddings and image operations it is
    attributed to the model identifier of the request. *)
Theorem failed_operation_recorded self storage op f0 e :
  usage_storage self = Some storage →
  fst (operation_try self op f0) = Raise e →
  ∃ f1 r, run_operation self op f0 = (Raise e, f1)
          ∧ usage_of f1 = usage_of f0 ++ [r]
          ∧ failure_record e r
          ∧ failure_attribution self op f0 r.
Proof.
  intros Hs Ht.
  destruct (failure_record_written self storage op f0 e Hs Ht)
    as (f1 & r & Hrun & Hu & Hf & Hp & Hm).
  exists f1, r. split; [done|]. split; [done|]. split; [done|].
  destruct op; cbn in *; auto.
Qed.

(** The embeddings and image operations never write a target into the
    context: in a context that carries no target provider, the record of
    a failed call names the provider "unknown", also when the provider
    had been resolved and it is the adapter that failed. *)
Lemma direct_failure_provider_unknown self storage op f0 e :
  usage_storage self = Some storage →
  target_provider (fr_context f0) = VNone →
  (∃ request, op = Embeddings request) ∨ (∃ request, op = ImageGeneration request) →
  fst (operation_try self op f0) = Raise e →
  ∃ f1 r, run_operation self op f0 = (Raise e, f1)
          ∧ usage_of f1 = usage_of f0 ++ [r]
          ∧ rec_provider r = VStr "unknown".
Proof.
  intros Hs Hnone Hop Ht.
  destruct (failure_record_written self storage op f0 e Hs Ht)
    as (f1 & r & Hrun & Hu & Hf & Hp & Hm).
  exists f1, r. split; [done|]. split; [done|].
  destruct Hop as [[request ->]|[request ->]]; cbn in Hp; by rewrite Hnone in Hp.
Qed.

(** An operation raises only what its [try] block raised. *)
Lemma operation_raises_from_try self op f0 e f1 :
  run_operation self op f0 = (Raise e, f1) →
  fst (operation_try self op f0) = Raise e.
Proof.
  destruct op as [request|request|request|request];
    unfold run_operation, operation_try, bind.
  - rewrite execute_chat_completion_steps. unfold try_except.
    destruct (chat_completion_try _ _ _ _) as [[g|e'] f']; [done|].
    unfold on_failure. destruct (usage_storage self); cbn; by intros [= <- _].
  - rewrite execute_streaming_chat_completion_steps. unfold try_except.
    destruct (streaming_chat_completion_try _ _ _ _) as [[g|e'] f']; [done|].
    unfold on_failure. destruct (usage_storage self); cbn; by intros [= <- _].
  - rewrite execute_embeddings_steps. unfold try_except.
    destruct (embeddings_try _ _ _ _) as [[g|e'] f']; [done|].
    unfold on_failure. destruct (usage_storage self); cbn; by intros [= <- _].
  - rewrite execute_image_generation_steps. unfold try_except.
    destruct (image_generation_try _ _ _ _) as [[g|e'] f']; [done|].
    unfold on_failure. destruct (usage_storage self); cbn; by intros [= <- _].
Qed.

(** In a context that carries no target yet, as RequestContext() builds
    it: a routing failure is recorded under the provider "unknown" and the
    model identifier of the request, a failure after routing under the
    target's provider and model where the target has them. *)
Lemma unresolved_context_attribution self request f :
  target_model (fr_context f) = VNone →
  target_provider (fr_context f) = VNone →
  let context := resolved_context self request f in
  match fst (route_chat_request (routing_engine self) request (Some (fr_context f))
               (fr_world f)) with
  | Raise _ =>
      py_or (target_provider context) (VStr "unknown") = VStr "unknown"
      ∧ py_or (target_model context) (req_model request) = req_model request
  | Return target =>
      target_provider context = default VNone (target !! "provider")
      ∧ target_model context = default VNone (target !! "model")
  end.
Proof.
  intros Hm Hp. unfold resolved_context.
  destruct (fst _) as [target|e]; cbn.
  - unfold context_with_target.
    destruct (target !! "model"), (target !! "provider"); cbn; by rewrite ?Hm, ?Hp.
  - by rewrite Hm, Hp.
Qed.

(** What a successful operation leaves in the storage. *)
Definition success_record (input output total : Z) (r : UsageRecord) : Prop :=
  rec_success r = true
  ∧ rec_error r = None
  ∧ rec_input_tokens r = input
  ∧ rec_output_tokens r = output
  ∧ rec_total_tokens r = total.

Lemma chat_completion_try_returns self storage request context f g f' :
  usage_storage self = Some storage →
  chat_completion_try self request context f = (Return g, f') →
  match resp_usage (response g) with
  | Some u =>
      ∃ r, usage_of f' = usage_of f ++ [r]
           ∧ success_record (prompt_tokens u) (completion_tokens u) (total_tokens u) r
  | None => usage_of f' = usage_of f
  end.
Proof.
  intros Hs. unfold chat_completion_try. unfold bind at 1.
  destruct (resolve_chat _ _ _ _) as [[[[[pn prov] mn] mr]|e0] f1] eqn:Hr;
    apply resolve_chat_frame in Hr as (Hu & _ & Hc); [|done].
  unfold bind at 1, lift_outcome.
  destruct (create_chat_completion prov mr) as [resp|e1]; [|done].
  rewrite Hs. destruct (resp_usage resp) as [u|] eqn:Hru; cbn.
  - intros [= <- <-]. cbn. rewrite Hru. eexists. unfold usage_of in *. cbn.
    rewrite Hu. split; [reflexivity|]. by repeat split.
  - intros [= <- <-]. cbn. by rewrite Hru.
Qed.

Lemma streaming_try_returns self storage request context f f' :
  usage_storage self = Some storage →
  streaming_chat_completion_try self request context f = (Return tt, f') →
  ∃ r chunks,
    usage_of f' = usage_of f ++ [r]
    ∧ fr_yielded f' = fr_yielded f ++ chunks
    ∧ success_record (input_estimate request) (output_estimate chunks)
        (input_estimate request + output_estimate chunks) r.
Proof.
  intros Hs. unfold streaming_chat_completion_try. unfold bind at 1.
  destruct (resolve_chat _ _ _ _) as [[[[[pn prov] mn] mr]|e0] f1] eqn:Hr;
    apply resolve_chat_frame in Hr as (Hu & Hy & Hc); [|done].
  destruct (create_streaming_chat_completion prov mr) as [chunks stop].
  unfold bind at 1.
  destruct (stream_loop chunks stop 0 f1) as [[n|e1] f2] eqn:Hl; [|done].
  apply stream_loop_frame in Hl as (Hu2 & Hc2 & Hw2 & Hn).
  destruct (Hn n eq_refl) as (-> & Hy2 & _).
  rewrite Hs. cbn. intros [= <-]. eexists _, chunks. unfold usage_of in *. cbn.
  rewrite Hu2, Hu, Hy2, Hy. split; [reflexivity|]. by repeat split.
Qed.

Lemma embeddings_try_returns self storage request context f g f' :
  usage_storage self = Some storage →
  embeddings_try self request context f = (Return g, f') →
  ∃ r, usage_of f' = usage_of f ++ [r]
       ∧ success_record (prompt_tokens (emb_usage (response g))) 0
           (total_tokens (emb_usage (response g))) r.
Proof.
  intros Hs. unfold embeddings_try. unfold bind at 1.
  destruct (resolve_direct _ _) as [[[pn prov]|e0] f1] eqn:Hr;
    apply resolve_direct_frame in Hr as (Hu & Hc & _); [|done].
  unfold bind at 1, lift_outcome.
  destruct (create_embeddings prov request) as [resp|e1]; [|done].
  rewrite Hs. cbn. intros [= <- <-]. eexists. unfold usage_of in *. cbn.
  rewrite Hu. split; [reflexivity|]. by repeat split.
Qed.

Lemma image_generation_try_returns self storage request context f g f' :
  usage_storage self = Some storage →
  image_generation_try self request context f = (Return g, f') →
  ∃ r, usage_of f' = usage_of f ++ [r]
       ∧ success_record (word_count (img_prompt request) / 3) 0
           (word_count (img_prompt request) / 3) r.
Proof.
  intros Hs. unfold image_generation_try. unfold bind at 1.
  destruct (resolve_direct _ _) as [[[pn prov]|e0] f1] eqn:Hr;
    apply resolve_direct_frame in Hr as (Hu & Hc & _); [|done].
  unfold bind at 1, lift_outcome.
  destruct (create_image prov request) as [resp|e1]; [|done].
  rewrite Hs. cbn. intros [= <- <-]. eexists. unfold usage_of in *. cbn.
  rewrite Hu. split; [reflexivity|]. by repeat split.
Qed.

(** The usage records a successful operation adds. *)
Definition success_recorded (op : Operation) (res : OperationResult) (f0 f1 : Frame) : Prop :=
  match op, res with
  | Chat request, ChatResult g =>
      match resp_usage (response g) with
      | Some u =>
          ∃ r, usage_of f1 = usage_of f0 ++ [r]
               ∧ success_record (prompt_tokens u) (completion_tokens u) (total_tokens u) r
      | None => usage_of f1 = usage_of f0
      end
  | StreamingChat request, StreamingChatResult =>
      ∃ r chunks,
        usage_of f1 = usage_of f0 ++ [r]
        ∧ fr_yielded f1 = fr_yielded f0 ++ chunks
        ∧ success_record (input_estimate request) (output_estimate chunks)
            (input_estimate request + output_estimate chunks) r
  | Embeddings request, EmbeddingsResult g =>
      ∃ r, usage_of f1 = usage_of f0 ++ [r]
           ∧ success_record (prompt_tokens (emb_usage (response g))) 0
               (total_tokens (emb_usage (response g))) r
  | ImageGeneration request, ImageGenerationResult g =>
      ∃ r, usage_of f1 = usage_of f0 ++ [r]
           ∧ success_record (word_count (img_prompt request) / 3) 0
               (word_count (img_prompt request) / 3) r
  | _, _ => False
  end.

(** C4 (as the code has it). When a usage storage is configured and an
    operation returns: a chat completion adds exactly one record, with the
    token counts of the response's usage, when the response carries
    usage, and adds no record when it carries none; a streaming chat
    completion adds exactly one record, with the word-count estimates of
    the request's messages and of the chunks it yielded, whatever usage
    the chunks carry; an embeddings call adds exactly one record with the
    prompt and total token counts of the response and 0 output tokens; an
    image generation adds exactly one record with the word-count estimate
    of the prompt. *)
Theorem successful_operation_recorded self storage op f0 res f1 :
  usage_storage self = Some storage →
  run_operation self op f0 = (Return res, f1) →
  success_recorded op res f0 f1.
Proof.
  intros Hs.
  destruct (request_logged_frame op f0) as (Hu0 & Hc0 & Hy0).
  destruct op as [request|request|request|request]; unfold run_operation, bind.
  - rewrite execute_chat_completion_steps. unfold try_except.
    destruct (chat_completion_try _ _ _ _) as [[g|e'] f'] eqn:Hb.
    + intros [= <- <-]. cbn.
      apply (chat_completion_try_returns _ storage) in Hb; [|done].
      by rewrite Hu0 in Hb.
    + unfold on_failure. rewrite Hs. cbn. done.
  - rewrite execute_streaming_chat_completion_steps. unfold try_except.
    destruct (streaming_chat_completion_try _ _ _ _) as [[[]|e'] f'] eqn:Hb.
    + intros [= <- <-]. cbn.
      apply (streaming_try_returns _ storage) in Hb; [|done].
      by rewrite Hu0, Hy0 in Hb.
    + unfold on_failure. rewrite Hs. cbn. done.
  - rewrite execute_embeddings_steps. unfold try_except.
    destruct (embeddings_try _ _ _ _) as [[g|e'] f'] eqn:Hb.
    + intros [= <- <-]. cbn.
      apply (embeddings_try_returns _ storage) in Hb; [|done].
      by rewrite Hu0 in Hb.
    + unfold on_failure. rewrite Hs. cbn. done.
  - rewrite execute_image_generation_steps. unfold try_except.
    destruct (image_generation_try _ _ _ _) as [[g|e'] f'] eqn:Hb.
    + intros [= <- <-]. cbn.
      apply (image_generation_try_returns _ storage) in Hb; [|done].
      by rewrite Hu0 in Hb.
    + unfold on_failure. rewrite Hs. cbn. done.
Qed.

End ExecutorProperties.

(** * Scaling the weights, in exact arithmetic *)

Section Scaling.

Implicit Types (router : Router (num := Q)) (ws : list Q) (c : Q).

(** The router with every weight multiplied by [c]. *)
Definition scale_weights c router : Router (num := Q) :=
  {| name := name router;
     strategy := match strategy router with
                 | PercentageStrategy ws => PercentageStrategy ((fun p => p * c)%Q <$> ws)
                 | s => s
                 end;
     targets := targets router |}.

Lemma Qle_bool_proper (r x y : Q) : (x == y)%Q → Qle_bool r x = Qle_bool r y.
Proof.
  intros Hxy. destruct (Qle_bool r x) eqn:Hx, (Qle_bool r y) eqn:Hy; try done.
  - apply Qle_bool_iff in Hx. rewrite Hxy in Hx. apply Qle_bool_iff in Hx. congruence.
  - apply Qle_bool_iff in Hy. rewrite <- Hxy in Hy. apply Qle_bool_iff in Hy. congruence.
Qed.

Lemma percentage_loop_proper (tgts : list Target) (r : Q) w ps ps' :
  Forall2 Qeq ps ps' →
  ∀ cumulative cumulative' i,
    (cumulative == cumulative')%Q →
    percentage_loop tgts r cumulative i ps w
    = percentage_loop tgts r cumulative' i ps' w.
Proof.
  induction 1 as [|p p' ps ps' Hp _ IH]; intros cumulative cumulative' i Hc; [done|].
  cbn.
  assert (Hq : (cumulative + p == cumulative' + p')%Q) by (by rewrite Hc, Hp).
  rewrite (Qle_bool_proper r _ _ Hq).
  destruct (Qle_bool r (cumulative' + p')); [done|]. by apply IH.
Qed.

Lemma py_sum_scaled c ws : ∀ a a',
  (a' == a * c)%Q →
  (fold_left Qplus ((fun p => p * c)%Q <$> ws) a' == fold_left Qplus ws a * c)%Q.
Proof.
  induction ws as [|p ws IH]; intros a a' Ha; [done|].
  cbn. apply IH. rewrite Ha. ring.
Qed.


Lemma Forall2_Qeq_fmap (f g : Q → Q) ws :
  (∀ p, f p == g p)%Q → Forall2 Qeq (f <$> ws) (g <$> ws).
Proof. intros Hfg. induction ws; constructor; auto. Qed.

Lemma normalize_zero ws (total : Q) :
  ws ≠ [] → Qeq_bool total 0 = true →
  normalize ws total = Raise (error ZeroDivisionError "float division by zero").
Proof.
  intros Hne Hz. destruct ws as [|p ws]; [done|].
  cbn. unfold py_truediv. cbn. by rewrite Hz.
Qed.

(** The weights the cumulative walk runs over. *)
Definition walked_weights ws : Outcome (list Q) :=
  if negb (Qeq_bool (py_sum ws) 100) then normalize ws (py_sum ws) else Return ws.

Definition same_weights (o o' : Outcome (list Q)) : Prop :=
  match o, o' with
  | Return ps, Return ps' => Forall2 Qeq ps ps'
  | Raise e, Raise e' => e = e'
  | _, _ => False
  end.

Lemma Qeq_bool_false (x y : Q) : Qeq_bool x y = false → ¬ (x == y)%Q.
Proof. intros Hb Hxy. apply Qeq_bool_iff in Hxy. congruence. Qed.

Lemma walked_weights_scaled c ws :
  (0 < c)%Q → ws ≠ [] →
  same_weights (walked_weights ((fun p => p * c)%Q <$> ws)) (walked_weights ws).
Proof.
  intros Hc Hne. unfold walked_weights.
  assert (Hne' : (fun p => p * c)%Q <$> ws ≠ []) by (by destruct ws).
  assert (Hc0 : ¬ (c == 0)%Q) by (intros Hz; rewrite Hz in Hc; by apply Qlt_irrefl in Hc).
  pose proof (py_sum_scaled c ws 0 0 ltac:(ring)) as Hs.
  change (fold_left Qplus ((fun p => p * c)%Q <$> ws) 0%Q)
    with (py_sum ((fun p => p * c)%Q <$> ws)) in Hs.
  change (fold_left Qplus ws 0%Q) with (py_sum ws) in Hs.
  set (S' := py_sum ((fun p => p * c)%Q <$> ws)) in *.
  set (S := py_sum ws) in *.
  destruct (Qeq_bool S 100) eqn:H100; cbn.
  - apply Qeq_bool_iff in H100.
    destruct (Qeq_bool S' 100) eqn:H100'; cbn.
    + apply Qeq_bool_iff in H100'.
      assert (Hc1 : (c == 1)%Q).
      { rewrite H100 in Hs. rewrite Hs in H100'.
        apply (Qmult_inj_l _ _ 100); [done|]. rewrite H100'. ring. }
      rewrite <- (list_fmap_id ws) at 2.
      apply Forall2_Qeq_fmap. intros p. cbn. rewrite Hc1. ring.
    + assert (Hnz : Qeq_bool S' 0 = false).
      { destruct (Qeq_bool S' 0) eqn:Hz; [|done].
        apply Qeq_bool_iff in Hz. rewrite Hs, H100 in Hz.
        exfalso. apply Hc0. apply (Qmult_inj_l _ _ 100); [done|]. rewrite Hz. ring. }
      rewrite (normalize_nonzero (H := exact_number) _ _ Hnz).
      cbn. rewrite <- (list_fmap_id ws) at 2. rewrite <- list_fmap_compose.
      apply Forall2_Qeq_fmap. intros p. cbn. rewrite Hs, H100. field. done.
  - destruct (Qeq_bool S 0) eqn:Hz.
    + assert (Hz' : Qeq_bool S' 0 = true).
      { apply Qeq_bool_iff. apply Qeq_bool_iff in Hz. rewrite Hs, Hz. ring. }
      assert (H100' : Qeq_bool S' 100 = false).
      { destruct (Qeq_bool S' 100) eqn:Hh; [|done].
        apply Qeq_bool_iff in Hh, Hz'. rewrite Hz' in Hh. done. }
      rewrite H100'. cbn. by rewrite !normalize_zero.
    + pose proof (Qeq_bool_false _ _ Hz) as HS0.
      rewrite (normalize_nonzero (H := exact_number) ws _ Hz). cbn.
      destruct (Qeq_bool S' 100) eqn:H100'; cbn.
      * apply Qeq_bool_iff in H100'. rewrite Hs in H100'.
        apply Forall2_Qeq_fmap. intros p.
        assert (Hceq : (c == 100 / S)%Q) by (rewrite <- H100'; field; done).
        rewrite Hceq. field. done.
      * assert (Hnz : Qeq_bool S' 0 = false).
        { destruct (Qeq_bool S' 0) eqn:Hz'; [|done].
          apply Qeq_bool_iff in Hz'. rewrite Hs in Hz'.
          apply Qmult_integral in Hz' as [|]; done. }
        rewrite (normalize_nonzero (H := exact_number) _ _ Hnz). cbn.
        rewrite <- list_fmap_compose.
        apply Forall2_Qeq_fmap. intros p. cbn. rewrite Hs. field. done.
Qed.


(** In exact arithmetic the draw of random.uniform(0, 100) lies in [0, 100). *)
Lemma uniform_draw_exact_range (st : RandomState) :
  (0 <= uniform_draw (num := Q) st < 100)%Q.
Proof.
  unfold uniform_draw. cbn.
  set (k := Z.of_N (next_draw st mod 2 ^ 53)).
  assert (Hk : (0 <= k < 2 ^ 53)%Z).
  { subst k. pose proof (N.mod_upper_bound (next_draw st) (2 ^ 53) ltac:(done)) as Hb.
    split; [apply N2Z.is_nonneg|].
    change (2 ^ 53)%Z with (Z.of_N (2 ^ 53)). by apply N2Z.inj_lt. }
  assert (Hu : (0 <= inject_Z k / inject_Z (2 ^ 53) < 1)%Q).
  { split.
    - apply Qle_shift_div_l; [reflexivity|]. rewrite Qmult_0_l.
      change 0%Q with (inject_Z 0). rewrite <- Zle_Qle. apply Hk.
    - apply Qlt_shift_div_r; [reflexivity|]. rewrite Qmult_1_l.
      rewrite <- Zlt_Qlt. apply Hk. }
  lra.
Qed.

Lemma percentage_weights_walked ws (w : World) :
  (if negb (num_eqb (py_sum ws) num_hundred)
   then lift_outcome (S := World) (normalize ws (py_sum ws))
   else ret ws) w
  = (walked_weights ws, w).
Proof. unfold walked_weights. cbn. by destruct (Qeq_bool _ _). Qed.

(** C10 (in exact arithmetic). With the weights and the draw read as
    exact rationals, multiplying every weight of a percentage router by
    the same positive constant changes nothing in the outcome of the
    strategy, for every state of the random generator: the same target
    is selected, or the same exception is raised. *)
Theorem scaling_preserves_selection (self self' : RoutingEngine (num := Q))
    router request context w c :
  (0 < c)%Q →
  _apply_percentage_strategy self' (scale_weights c router) request context w
  = _apply_percentage_strategy self router request context w
  ∧ _apply_routing_strategy self' (scale_weights c router) request context w
    = _apply_routing_strategy self router request context w.
Proof.
  intros Hc.
  assert (Hp : _apply_percentage_strategy self' (scale_weights c router) request context w
               = _apply_percentage_strategy self router request context w).
  { unfold _apply_percentage_strategy, no_targets, no_targets_error. cbn.
    destruct (targets router) as [|t ts] eqn:Ht; [done|].
    destruct (strategy router) as [|ws| |m]; cbn; try done.
    rewrite length_fmap.
    destruct (length ws =? _)%nat eqn:Hlen; cbn; [|done].
    assert (Hne : ws ≠ []) by (by destruct ws).
    unfold bind at 1 3. rewrite !percentage_weights_walked.
    pose proof (walked_weights_scaled c ws Hc Hne) as Hw.
    destruct (walked_weights ((fun p => p * c)%Q <$> ws)) as [ps'|e'],
      (walked_weights ws) as [ps|e]; cbn in Hw; try done; [|by subst].
    unfold bind. rewrite !random_uniform_0_100_draw.
    by apply percentage_loop_proper. }
  split; [exact Hp|].
  destruct (strategy router) as [|ws| |m] eqn:Hs.
  - unfold _apply_routing_strategy, _apply_fallback_strategy, no_targets. cbn.
    by rewrite Hs.
  - unfold _apply_routing_strategy, no_targets. cbn. rewrite Hs. cbn.
    destruct (targets router); [done|].
    unfold try_except. by rewrite Hp.
  - unfold _apply_routing_strategy, _apply_random_strategy, no_targets. cbn.
    by rewrite Hs.
  - unfold _apply_routing_strategy, _apply_optimized_strategy, no_targets. cbn.
    by rewrite Hs.
Qed.

End Scaling.

(** * Properties of the Anthropic adapter *)

Section AnthropicProperties.

Import AnthropicProvider.

(** The two chat operations of the adapter. *)
Inductive ChatCall := Blocking | Streaming.

(** The upstream call of an operation fails with [e]: the call itself
    raises, or, for a stream, the iteration over it raises after some
    events. *)
Definition upstream_failure (self : AnthropicProvider.t) (call : ChatCall)
    (request : ChatCompletionRequest) (e : PyException) : Prop :=
  match call with
  | Blocking => messages_create (client self) request = Raise e
  | Streaming =>
      messages_create_stream (client self) request = Raise e
      ∨ ∃ events, messages_create_stream (client self) request = Return (events, Some e)
  end.

(** The exception, if any, an operation of the adapter ends with. *)
Definition raised_by (self : AnthropicProvider.t) (call : ChatCall)
    (request : ChatCompletionRequest) : option PyException :=
  match call with
  | Blocking =>
      match create_chat_completion self request with
      | Raise e => Some e
      | Return _ => None
      end
  | Streaming => snd (create_streaming_chat_completion self request)
  end.

(** The message of an upstream error tells that credentials were
    rejected, or that the upstream is throttling. *)
Definition mentions_credentials (message : string) : bool :=
  is_substring "authentication" (lower message)
  || is_substring "api key" (lower message).

Definition mentions_throttling (message : string) : bool :=
  is_substring "rate limit" (lower message).

Lemma classify_class e :
  exc_class (classify e)
  = (if mentions_credentials (str_of_exception e) then AuthenticationError
     else if mentions_throttling (str_of_exception e) then RateLimitExceededError
     else ProviderError)
  ∧ ∃ prefix, str_of_exception (classify e) = (prefix ++ str_of_exception e)%string.
Proof.
  unfold classify, mentions_credentials, mentions_throttling.
  destruct (_ || _); [by eauto|]. destruct (is_substring "rate limit" _); by eauto.
Qed.

(** A message says a phrase when the phrase occurs in it, whatever the
    case of the letters of the message: some text, the phrase, some
    text. *)
Definition says (phrase message : string) : Prop :=
  ∃ before after, lower message = (before ++ phrase ++ after)%string.

Lemma prefix_occurs (needle hay : string) :
  String.prefix needle hay = true ↔ ∃ after, hay = (needle ++ after)%string.
Proof.
  revert hay. induction needle as [|c needle IH]; intros hay.
  - split; [by exists hay|]. intros _. by destruct hay.
  - destruct hay as [|d hay]; cbn; [split; [done|by intros [after [=]]]|].
    destruct (ascii_dec c d) as [->|Hne].
    + rewrite IH. split.
      * intros [after ->]. by exists after.
      * intros [after [= ->]]. by exists after.
    + split; [done|]. intros [after [= -> _]]. done.
Qed.

Lemma is_substring_occurs (needle hay : string) :
  is_substring needle hay = true
  ↔ ∃ before after, hay = (before ++ needle ++ after)%string.
Proof.
  induction hay as [|d hay IH].
  - cbn [is_substring]. rewrite orb_false_r, prefix_occurs. split.
    + intros [after ->]. by exists "", after.
    + intros (before & after & Heq). destruct before as [|b before]; [|done].
      by exists after.
  - cbn [is_substring]. rewrite orb_true_iff, prefix_occurs, IH. split.
    + intros [[after ->]|(before & after & ->)].
      * by exists "", after.
      * by exists (String d before), after.
    + intros (before & after & Heq). destruct before as [|b before].
      * left. by exists after.
      * right. injection Heq as -> ->. by exists before, after.
Qed.

Lemma mentions_credentials_says message :
  mentions_credentials message = true
  ↔ says "authentication" message ∨ says "api key" message.
Proof.
  unfold mentions_credentials, says. by rewrite orb_true_iff, !is_substring_occurs.
Qed.

Lemma mentions_throttling_says message :
  mentions_throttling message = true ↔ says "rate limit" message.
Proof. unfold mentions_throttling, says. by rewrite is_substring_occurs. Qed.

(** The class of the error raised in place of [e], by the words of the
    message of [e]. *)
Lemma classify_by_words e :
  (exc_class (classify e) = AuthenticationError
   ↔ says "authentication" (str_of_exception e) ∨ says "api key" (str_of_exception e))
  ∧ (exc_class (classify e) = RateLimitExceededError
     ↔ says "rate limit" (str_of_exception e)
       ∧ ¬ (says "authentication" (str_of_exception e)
            ∨ says "api key" (str_of_exception e)))
  ∧ (exc_class (classify e) = ProviderError
     ↔ ¬ says "rate limit" (str_of_exception e)
       ∧ ¬ (says "authentication" (str_of_exception e)
            ∨ says "api key" (str_of_exception e))).
Proof.
  destruct (classify_class e) as [-> _].
  rewrite <- mentions_credentials_says, <- mentions_throttling_says.
  destruct (mentions_credentials _), (mentions_throttling _); intuition congruence.
Qed.

(** C9. When the upstream call of a chat operation of the Anthropic
    adapter fails (the blocking call raises; the streaming call raises,
    or the stream raises after some events), the operation raises a
    gateway error chosen by the words of the message of the upstream
    exception, read without regard to the case of its letters:
    AuthenticationError exactly when the message contains
    "authentication" or "api key"; RateLimitExceededError exactly when
    it contains "rate limit" and neither of those two; ProviderError
    exactly when it contains none of the three.  The error raised is
    always one of these three gateway errors, its message ends with the
    upstream message, and no upstream exception escapes unclassified. *)
Theorem upstream_failure_classified self call request e :
  upstream_failure self call request e →
  ∃ e', raised_by self call request = Some e'
        ∧ (exc_class e' = AuthenticationError
           ↔ says "authentication" (str_of_exception e)
             ∨ says "api key" (str_of_exception e))
        ∧ (exc_class e' = RateLimitExceededError
           ↔ says "rate limit" (str_of_exception e)
             ∧ ¬ (says "authentication" (str_of_exception e)
                  ∨ says "api key" (str_of_exception e)))
        ∧ (exc_class e' = ProviderError
           ↔ ¬ says "rate limit" (str_of_exception e)
             ∧ ¬ (says "authentication" (str_of_exception e)
                  ∨ says "api key" (str_of_exception e)))
        ∧ exc_class e' ∈ [AuthenticationError; RateLimitExceededError; ProviderError]
        ∧ ∃ prefix, str_of_exception e' = (prefix ++ str_of_exception e)%string.
Proof.
  intros Hup. exists (classify e).
  destruct (classify_class e) as [Hc Hm].
  destruct (classify_by_words e) as (Ha & Hr & Hp).
  split.
  - destruct call; cbn in *.
    + unfold create_chat_completion. by rewrite Hup.
    + unfold create_streaming_chat_completion.
      destruct Hup as [Hup|[events Hup]]; by rewrite Hup.
  - split; [done|]. split; [done|]. split; [done|]. split; [|done]. rewrite Hc.
    destruct (mentions_credentials _); [repeat constructor|].
    destruct (mentions_throttling _); repeat constructor.
Qed.

(** Whatever the upstream does, an exception a chat operation of the
    adapter ends with is one of the three gateway errors. *)
Lemma adapter_raises_gateway_errors self call request e' :
  raised_by self call request = Some e' →
  exc_class e' ∈ [AuthenticationError; RateLimitExceededError; ProviderError].
Proof.
  assert (Hc : ∀ e, exc_class (classify e)
                    ∈ [AuthenticationError; RateLimitExceededError; ProviderError]).
  { intros e. destruct (classify_class e) as [-> _].
    destruct (mentions_credentials _); [repeat constructor|].
    destruct (mentions_throttling _); repeat constructor. }
  destruct call; cbn.
  - unfold create_chat_completion.
    destruct (messages_create _ _); [done|]. intros [= <-]. apply Hc.
  - unfold create_streaming_chat_completion.
    destruct (messages_create_stream _ _) as [[events [e|]]|e]; cbn; try done;
      intros [= <-]; apply Hc.
Qed.

End AnthropicProperties.

(** * Worked executions

    Concrete routers, catalogs and providers on which the theorems above
    are exercised, and on which the code is run where the specification
    says something else than the code does.  Weights are IEEE binary64
    values unless stated otherwise. *)

Module Examples.

Definition target_a : Target :=
  <["provider" := VStr "openai"]> (<["model" := VStr "gpt-a"]> ∅).
Definition target_b : Target :=
  <["provider" := VStr "anthropic"]> (<["model" := VStr "claude-b"]> ∅).

(** A generator whose next draw is 3 * 2**51: random.random() is 0.75
    and random.uniform(0, 100) is 75.0. *)
Definition three_quarters : RandomState :=
  {| entropy := fun _ => (3 * 2 ^ 51)%N; draws := 0 |}.

Definition gpt_a : ModelDefinition :=
  {| model := "gpt-a"; model_provider := "openai";
     inference_provider := {| provider := "openai"; model_name := "gpt-a-2024";
                              endpoint := None |};
     model_type := COMPLETIONS; description := "" |}.

Definition embed_small : ModelDefinition :=
  {| model := "embed-small"; model_provider := "openai";
     inference_provider := {| provider := "openai"; model_name := "embed-small-v1";
                              endpoint := None |};
     model_type := EMBEDDINGS; description := "" |}.

Definition plain_response (u : option Usage) : ChatCompletionResponse :=
  {| resp_id := "chatcmpl-1"; resp_model := "gpt-a-2024";
     resp_choices := [{| choice_index := 0;
                         choice_message := {| role := ASSISTANT; content := Text "hello" |};
                         choice_finish_reason := Some STOP |}];
     resp_usage := u |}.

(** An adapter whose upstream answers chat completions without usage
    and is unavailable for everything else. *)
Definition openai : Provider :=
  {| create_chat_completion := fun _ => Return (plain_response None);
     create_streaming_chat_completion :=
       fun _ => ([], Some (error ProviderError "upstream unavailable"));
     create_embeddings := fun _ => Raise (error ProviderError "upstream unavailable");
     create_image := fun _ => Raise (error ProviderError "upstream unavailable") |}.

(** The Anthropic adapter over an upstream that answers with usage. *)
Definition anthropic_client : AnthropicProvider.AsyncAnthropic :=
  {| AnthropicProvider.messages_create := fun _ =>
       Return {| AnthropicProvider.msg_id := "msg_1";
                 AnthropicProvider.msg_model := "claude-b";
                 AnthropicProvider.msg_content := ["one two three"];
                 AnthropicProvider.msg_stop_reason := Some "end_turn";
                 AnthropicProvider.msg_usage :=
                   {| AnthropicProvider.input_tokens := 9;
                      AnthropicProvider.output_tokens := 12 |} |};
     AnthropicProvider.messages_create_stream := fun _ =>
       Return ([AnthropicProvider.content_block_delta "one two three";
                AnthropicProvider.message_stop (Some "end_turn")
                  (Some {| AnthropicProvider.input_tokens := 9;
                           AnthropicProvider.output_tokens := 12 |})],
               None) |}.

Definition anthropic : Provider :=
  AnthropicProvider.as_provider
    {| AnthropicProvider.client := anthropic_client;
       AnthropicProvider.timestamp := "1700000000.0" |}.

(** An upstream that throttles. *)
Definition throttled : AnthropicProvider.t :=
  {| AnthropicProvider.client :=
       {| AnthropicProvider.messages_create := fun _ =>
            Raise (error OtherException "Error code: 429 - Rate limit exceeded");
          AnthropicProvider.messages_create_stream := fun _ =>
            Raise (error OtherException "Error code: 429 - Rate limit exceeded") |};
     AnthropicProvider.timestamp := "1700000000.0" |}.

Definition world : World :=
  {| random_state := three_quarters;
     model_registry :=
       {| _models := <["embed-small" := embed_small]> (<["gpt-a" := gpt_a]> ∅);
          _loaded := true |};
     models_path := "models.yaml";
     models_yaml := None;
     provider_registry := <["anthropic" := anthropic]> {["openai" := openai]};
     usage_records := [];
     clock := fun k => Z.of_nat k;
     clock_reads := 0;
     uuid4 := "6f1c";
     log := [] |}.

Definition chat_request (requested : string) : ChatCompletionRequest :=
  {| req_model := VStr requested;
     req_messages := [{| role := USER; content := Text "count to three" |}];
     req_fields := ∅ |}.

Definition router_of (s : RouterStrategy (num := float)) (ts : list Target) : Router :=
  {| name := "ab"; strategy := s; targets := ts |}.

Definition engine_of (r : Router (num := float)) : RoutingEngine := new_RoutingEngine [r].

(** ** Routing *)

Lemma direct_request_resolution_witness :
  req_model (chat_request "gpt-a") = VStr "gpt-a"
  ∧ String.prefix "router/" "gpt-a" = false
  ∧ route_chat_request (engine_of (router_of FallbackStrategy [target_a]))
      (chat_request "gpt-a") None world
    = (Return (<["provider" := VStr "openai"]> (<["model" := VStr "gpt-a-2024"]> ∅)),
       world).
Proof.
  split; [reflexivity|]. split; [reflexivity|].
  pose proof (direct_request_resolution
                (engine_of (router_of FallbackStrategy [target_a]))
                (chat_request "gpt-a") None world "gpt-a" eq_refl eq_refl) as Hd.
  change (catalog_for "gpt-a" world !! "gpt-a") with (Some gpt_a) in Hd.
  exact (proj1 Hd).
Defined.

Lemma empty_router_raises_witness :
  targets (router_of RandomStrategy []) = []
  ∧ route_chat_request (engine_of (router_of RandomStrategy []))
      (chat_request "router/ab") None world
    = (Raise (error RouterError "Router ab has no targets"), world).
Proof.
  split; [reflexivity|].
  destruct (empty_router_raises (engine_of (router_of RandomStrategy []))
              (router_of RandomStrategy []) (chat_request "router/ab") None world
              eq_refl) as (_ & _ & _ & _ & _ & _ & Hr).
  exact (Hr "ab" eq_refl eq_refl).
Defined.

Lemma fallback_returns_first_witness :
  strategy (router_of FallbackStrategy [target_a; target_b]) = FallbackStrategy
  ∧ targets (router_of FallbackStrategy [target_a; target_b]) = [target_a; target_b]
  ∧ route_chat_request (engine_of (router_of FallbackStrategy [target_a; target_b]))
      (chat_request "router/ab") None world
    = (Return target_a, world).
Proof.
  split; [reflexivity|]. split; [reflexivity|].
  destruct (fallback_returns_first
              (engine_of (router_of FallbackStrategy [target_a; target_b]))
              (router_of FallbackStrategy [target_a; target_b])
              (chat_request "router/ab") None world target_a [target_b]
              eq_refl eq_refl) as (_ & _ & _ & Hr).
  exact (Hr "ab" eq_refl eq_refl).
Defined.

Lemma percentage_mismatch_raises_witness :
  strategy (router_of (PercentageStrategy [100%float]) [target_a; target_b])
  = PercentageStrategy [100%float]
  ∧ length [100%float] ≠ length [target_a; target_b]
  ∧ ∃ msg w',
      _apply_routing_strategy
        (engine_of (router_of (PercentageStrategy [100%float]) [target_a; target_b]))
        (router_of (PercentageStrategy [100%float]) [target_a; target_b])
        (chat_request "router/ab") None world
      = (Raise (error RouterError msg), w')
      ∧ random_state w' = random_state world.
Proof.
  split; [reflexivity|]. split; [cbn; lia|].
  refine (proj1 (proj2 (percentage_mismatch_raises
                          (engine_of (router_of (PercentageStrategy [100%float])
                                        [target_a; target_b]))
                          (router_of (PercentageStrategy [100%float]) [target_a; target_b])
                          (chat_request "router/ab") None world [100%float]
                          eq_refl _))).
  cbn. lia.
Defined.

Lemma percentage_selection_witness :
  strategy (router_of (PercentageStrategy [70%float; 30%float]) [target_a; target_b])
  = PercentageStrategy [70%float; 30%float]
  ∧ targets (router_of (PercentageStrategy [70%float; 30%float]) [target_a; target_b]) ≠ []
  ∧ length [70%float; 30%float] = length [target_a; target_b]
  ∧ num_eqb (py_sum [70%float; 30%float]) num_hundred = true
  ∧ ∃ t, spec_percentage_selection [target_a; target_b] [70%float; 30%float]
           (uniform_draw three_quarters) = Some t
         ∧ _apply_percentage_strategy
             (engine_of (router_of (PercentageStrategy [70%float; 30%float])
                           [target_a; target_b]))
             (router_of (PercentageStrategy [70%float; 30%float]) [target_a; target_b])
             (chat_request "router/ab") None world
           = (Return t, set_random (advance three_quarters) world).
Proof.
  split; [reflexivity|]. split; [done|]. split; [reflexivity|]. split; [reflexivity|].
  destruct (percentage_selection
              (engine_of (router_of (PercentageStrategy [70%float; 30%float])
                            [target_a; target_b]))
              (router_of (PercentageStrategy [70%float; 30%float]) [target_a; target_b])
              (chat_request "router/ab") None world [70%float; 30%float]
              eq_refl ltac:(done) eq_refl (or_introl eq_refl)) as (t & Hs & Hp & _).
  by exists t.
Defined.

Lemma random_and_optimized_pick_member_witness :
  targets (router_of RandomStrategy [target_a; target_b]) ≠ []
  ∧ strategy (router_of RandomStrategy [target_a; target_b]) = RandomStrategy
  ∧ ∃ t w', t ∈ [target_a; target_b]
            ∧ _apply_routing_strategy
                (engine_of (router_of RandomStrategy [target_a; target_b]))
                (router_of RandomStrategy [target_a; target_b])
                (chat_request "router/ab") None world
              = (Return t, w').
Proof.
  split; [done|]. split; [reflexivity|].
  exact (proj1 (random_and_optimized_pick_member
                  (engine_of (router_of RandomStrategy [target_a; target_b]))
                  (router_of RandomStrategy [target_a; target_b])
                  (chat_request "router/ab") None world
                  ltac:(done) (or_introl eq_refl))).
Defined.

(** Weights that sum to zero: the normalization divides by zero, no
    draw is taken and no target is returned, where the algorithm of
    the specification would have walked the weights and ended on the
    last target. *)
Lemma percentage_zero_sum_counterexample :
  targets (router_of (PercentageStrategy [0%float; 0%float]) [target_a; target_b]) ≠ []
  ∧ length [0%float; 0%float] = length [target_a; target_b]
  ∧ _apply_percentage_strategy
      (engine_of (router_of (PercentageStrategy [0%float; 0%float]) [target_a; target_b]))
      (router_of (PercentageStrategy [0%float; 0%float]) [target_a; target_b])
      (chat_request "router/ab") None world
    = (Raise (error ZeroDivisionError "float division by zero"), world)
  ∧ fst (route_chat_request
           (engine_of (router_of (PercentageStrategy [0%float; 0%float])
                         [target_a; target_b]))
           (chat_request "router/ab") None world)
    = Raise (error RouterError "Routing strategy error: float division by zero")
  ∧ random_state
      (snd (route_chat_request
              (engine_of (router_of (PercentageStrategy [0%float; 0%float])
                            [target_a; target_b]))
              (chat_request "router/ab") None world))
    = three_quarters
  ∧ spec_percentage_selection [target_a; target_b] [0%float; 0%float]
      (uniform_draw three_quarters)
    = Some target_b.
Proof.
  split; [done|]. split; [reflexivity|].
  split; [reflexivity|]. split; [by vm_compute|]. split; [reflexivity|]. by vm_compute.
Qed.

(** Weights 1e306 and 1e306 normalize to 50 and 50; ten times these
    weights overflow when multiplied by 100 and normalize to infinity.
    For the draw 75.0 the first router selects its second target and
    the second router its first. *)
Lemma scaling_overflow_counterexample :
  uniform_draw three_quarters = 75%float
  ∧ (fun p => p * 10)%float <$> [1e306%float; 1e306%float] = [1e307%float; 1e307%float]
  ∧ fst (_apply_percentage_strategy
           (engine_of (router_of (PercentageStrategy [1e306%float; 1e306%float])
                         [target_a; target_b]))
           (router_of (PercentageStrategy [1e306%float; 1e306%float]) [target_a; target_b])
           (chat_request "router/ab") None world)
    = Return target_b
  ∧ fst (_apply_percentage_strategy
           (engine_of (router_of (PercentageStrategy [1e307%float; 1e307%float])
                         [target_a; target_b]))
           (router_of (PercentageStrategy [1e307%float; 1e307%float]) [target_a; target_b])
           (chat_request "router/ab") None world)
    = Return target_a
  ∧ target_a ≠ target_b.
Proof.
  split; [by vm_compute|]. split; [by vm_compute|].
  split; [by vm_compute|]. split; [by vm_compute|].
  intros Heq. by apply (f_equal (fun t : Target => t !! "model")) in Heq.
Qed.

(** Rounding alone is enough: weights 1 and 2, and a tenth of them,
    normalize to values that differ in the last place, and a draw that
    falls between them selects different targets. *)
Definition near_one_third : RandomState :=
  {| entropy := fun _ => 3002399751580331%N; draws := 0 |}.

Example scaling_rounding_example :
  (fun p => p * 0.1)%float <$> [1%float; 2%float] = [0.1%float; 0.2%float]
  ∧ fst (_apply_percentage_strategy
           (engine_of (router_of (PercentageStrategy [1%float; 2%float])
                         [target_a; target_b]))
           (router_of (PercentageStrategy [1%float; 2%float]) [target_a; target_b])
           (chat_request "router/ab") None (set_random near_one_third world))
    = Return target_a
  ∧ fst (_apply_percentage_strategy
           (engine_of (router_of (PercentageStrategy [0.1%float; 0.2%float])
                         [target_a; target_b]))
           (router_of (PercentageStrategy [0.1%float; 0.2%float]) [target_a; target_b])
           (chat_request "router/ab") None (set_random near_one_third world))
    = Return target_b.
Proof. split; [by vm_compute|]. split; by vm_compute. Qed.

(** The same scaling in exact arithmetic. *)
Definition exact_router (ws : list Q) : Router (num := Q) :=
  {| name := "ab"; strategy := PercentageStrategy ws; targets := [target_a; target_b] |}.

Lemma scaling_preserves_selection_witness :
  (0 < 10)%Q
  ∧ _apply_percentage_strategy (new_RoutingEngine [scale_weights 10%Q (exact_router [1%Q; 2%Q])])
      (scale_weights 10%Q (exact_router [1%Q; 2%Q])) (chat_request "router/ab") None world
    = _apply_percentage_strategy (new_RoutingEngine [exact_router [1%Q; 2%Q]])
        (exact_router [1%Q; 2%Q]) (chat_request "router/ab") None world.
Proof.
  split; [reflexivity|].
  exact (proj1 (scaling_preserves_selection
                  (new_RoutingEngine [exact_router [1%Q; 2%Q]])
                  (new_RoutingEngine [scale_weights 10%Q (exact_router [1%Q; 2%Q])])
                  (exact_router [1%Q; 2%Q]) (chat_request "router/ab") None world 10%Q
                  eq_refl)).
Defined.

(** ** The executor *)

Definition executor : RequestExecutor (num := float) :=
  {| routing_engine := engine_of (router_of FallbackStrategy [target_b]);
     usage_storage := Some InMemoryUsageStorage |}.

(** A call with a fresh context. *)
Definition call : Frame := enter None world.

Definition not_found : PyException := error ModelNotFoundError "Model not found: gpt-x".
Definition unavailable : PyException := error ProviderError "upstream unavailable".

Lemma failed_operation_recorded_witness :
  usage_storage executor = Some InMemoryUsageStorage
  ∧ fst (operation_try executor (Chat (chat_request "gpt-x")) call) = Raise not_found
  ∧ ∃ f1 r, run_operation executor (Chat (chat_request "gpt-x")) call
            = (Raise not_found, f1)
            ∧ usage_of f1 = usage_of call ++ [r]
            ∧ failure_record not_found r
            ∧ failure_attribution executor (Chat (chat_request "gpt-x")) call r.
Proof.
  split; [reflexivity|]. split; [by vm_compute|].
  apply (failed_operation_recorded executor InMemoryUsageStorage
           (Chat (chat_request "gpt-x")) call not_found); [reflexivity|by vm_compute].
Defined.

(** A chat call for a model the catalog does not have: routing fails
    before any target exists; the record names the provider "unknown"
    but the model the request asked for.  An embeddings call whose
    provider, "openai", was resolved from the catalog and found in the
    registry, and whose adapter then failed: the record names the
    provider "unknown". *)
Lemma failure_attribution_counterexample :
  fst (route_chat_request (routing_engine executor) (chat_request "gpt-x") None world)
  = Raise not_found
  ∧ fst (run_operation executor (Chat (chat_request "gpt-x")) call) = Raise not_found
  ∧ (fun r => (rec_provider r, rec_model r, rec_success r))
      <$> usage_of (snd (run_operation executor (Chat (chat_request "gpt-x")) call))
    = [(VStr "unknown", VStr "gpt-x", false)]
  ∧ fst (resolve_direct "embed-small" call) = Return ("openai", openai)
  ∧ fst (run_operation executor
           (Embeddings {| emb_model := "embed-small"; emb_input := ["text"] |}) call)
    = Raise unavailable
  ∧ (fun r => (rec_provider r, rec_model r, rec_success r))
      <$> usage_of (snd (run_operation executor
                           (Embeddings {| emb_model := "embed-small";
                                          emb_input := ["text"] |}) call))
    = [(VStr "unknown", VStr "embed-small", false)].
Proof.
  split; [by vm_compute|]. split; [by vm_compute|]. split; [by vm_compute|].
  split; [by vm_compute|]. split; by vm_compute.
Qed.

Definition reported : Usage :=
  {| prompt_tokens := 9; completion_tokens := 12; total_tokens := 21 |}.

Lemma successful_operation_recorded_witness :
  usage_storage executor = Some InMemoryUsageStorage
  ∧ (∃ g f1, run_operation executor (Chat (chat_request "router/ab")) call
             = (Return (ChatResult g), f1)
             ∧ resp_usage (response g) = Some reported
             ∧ success_recorded (Chat (chat_request "router/ab")) (ChatResult g) call f1).
Proof.
  split; [reflexivity|].
  destruct (run_operation executor (Chat (chat_request "router/ab")) call)
    as [[[g| |g|g]|e] f1] eqn:Hrun; try (by vm_compute in Hrun).
  exists g, f1. split; [reflexivity|].
  split; [by vm_compute in Hrun; injection Hrun as <- <-|].
  exact (successful_operation_recorded executor InMemoryUsageStorage
           (Chat (chat_request "router/ab")) call (ChatResult g) f1 eq_refl Hrun).
Defined.

(** A chat completion whose response carries no usage returns and
    leaves no record.  A streaming chat completion whose last chunk
    carries the usage the upstream reported (9, 12, 21) returns and
    leaves a record with the word-count estimates (1, 1, 2). *)
Lemma success_record_counterexample :
  fst (run_operation executor (Chat (chat_request "gpt-a")) call)
  = Return (ChatResult {| response := plain_response None; usage := zero_usage |})
  ∧ usage_of (snd (run_operation executor (Chat (chat_request "gpt-a")) call)) = []
  ∧ fst (run_operation executor (StreamingChat (chat_request "router/ab")) call)
    = Return StreamingChatResult
  ∧ chunk_usage
      <$> fr_yielded (snd (run_operation executor
                             (StreamingChat (chat_request "router/ab")) call))
    = [None; Some reported]
  ∧ (fun r => (rec_input_tokens r, rec_output_tokens r, rec_total_tokens r, rec_success r))
      <$> usage_of (snd (run_operation executor
                           (StreamingChat (chat_request "router/ab")) call))
    = [(1, 1, 2, true)%Z].
Proof.
  split; [by vm_compute|]. split; [by vm_compute|]. split; [by vm_compute|].
  split; by vm_compute.
Qed.

(** ** The Anthropic adapter *)

Lemma upstream_failure_classified_witness :
  upstream_failure throttled Streaming (chat_request "claude-b")
    (error OtherException "Error code: 429 - Rate limit exceeded")
  ∧ says "rate limit" "Error code: 429 - Rate limit exceeded"
  ∧ ∃ e', raised_by throttled Streaming (chat_request "claude-b") = Some e'
          ∧ exc_class e' = RateLimitExceededError.
Proof.
  split; [by left|].
  assert (says "rate limit" "Error code: 429 - Rate limit exceeded") as Hsays.
  { by exists "error code: 429 - ", " exceeded". }
  split; [exact Hsays|].
  destruct (upstream_failure_classified throttled Streaming (chat_request "claude-b")
              (error OtherException "Error code: 429 - Rate limit exceeded")
              (or_introl eq_refl)) as (e' & Hr & _ & Hc & _).
  exists e'. split; [exact Hr|]. apply Hc. split; [exact Hsays|].
  rewrite <- mentions_credentials_says. by vm_compute.
Defined.

(** Two upstreams that throttle.  The message of the first names the
    API key that is throttled: the adapter raises AuthenticationError.
    The message of the second gives the status and the category of the
    upstream error, and not the words "rate limit": the adapter raises
    ProviderError. *)
Definition throttled_key : AnthropicProvider.t :=
  {| AnthropicProvider.client :=
       {| AnthropicProvider.messages_create := fun _ =>
            Raise (error OtherException
                     "Error code: 429 - Rate limit exceeded for API key sk-ant-123");
          AnthropicProvider.messages_create_stream := fun _ =>
            Raise (error OtherException
                     "Error code: 429 - Rate limit exceeded for API key sk-ant-123") |};
     AnthropicProvider.timestamp := "1700000000.0" |}.

Definition too_many_requests : AnthropicProvider.t :=
  {| AnthropicProvider.client :=
       {| AnthropicProvider.messages_create := fun _ =>
            Raise (error OtherException
                     "Error code: 429 - rate_limit_error: Too many requests");
          AnthropicProvider.messages_create_stream := fun _ =>
            Raise (error OtherException
                     "Error code: 429 - rate_limit_error: Too many requests") |};
     AnthropicProvider.timestamp := "1700000000.0" |}.

Lemma throttling_classification_counterexample :
  upstream_failure throttled_key Blocking (chat_request "claude-b")
    (error OtherException "Error code: 429 - Rate limit exceeded for API key sk-ant-123")
  ∧ says "rate limit" "Error code: 429 - Rate limit exceeded for API key sk-ant-123"
  ∧ raised_by throttled_key Blocking (chat_request "claude-b")
    = Some (error AuthenticationError
              "Anthropic authentication error: Error code: 429 - Rate limit exceeded for API key sk-ant-123")
  ∧ raised_by throttled_key Streaming (chat_request "claude-b")
    = Some (error AuthenticationError
              "Anthropic authentication error: Error code: 429 - Rate limit exceeded for API key sk-ant-123")
  ∧ upstream_failure too_many_requests Blocking (chat_request "claude-b")
      (error OtherException "Error code: 429 - rate_limit_error: Too many requests")
  ∧ raised_by too_many_requests Blocking (chat_request "claude-b")
    = Some (error ProviderError
              "Anthropic error: Error code: 429 - rate_limit_error: Too many requests")
  ∧ raised_by too_many_requests Streaming (chat_request "claude-b")
    = Some (error ProviderError
              "Anthropic error: Error code: 429 - rate_limit_error: Too many requests")
  ∧ AuthenticationError ≠ RateLimitExceededError
  ∧ ProviderError ≠ RateLimitExceededError.
Proof.
  split; [reflexivity|].
  split; [by exists "error code: 429 - ", " exceeded for api key sk-ant-123"|].
  split; [by vm_compute|]. split; [by vm_compute|].
  split; [reflexivity|].
  split; [by vm_compute|]. split; [by vm_compute|].
  split; discriminate.
Qed.

End Examples.
